(** * Azure Service Bus topics pub/sub component

    A shallow embedding of [pubsub/azure/servicebus/topics/servicebus.go]:
    the publish path with its retry loop, the bulk publish path, the
    subscribe path with its reconnect loop, the session slot pool and
    [Close].

    The component talks to a broker through collaborators that are not part
    of that file ([impl.Client], the [backoff] and [retry] libraries, the
    [pubsub] response helpers).  The broker's answers are an explicit
    environment (records of replies), every call the component makes is
    appended to a log, and the collaborators are written out once, below,
    each under a comment saying where its behaviour is taken from. *)

From stdpp Require Import base option list gmap strings.
From Stdlib Require Import ZArith Lia.

Local Open Scope Z_scope.

(** ** Go values *)

(** [error]: an error value.  [PermanentError] is the wrapper built by
    [backoff.Permanent]; [Canceled] is [context.Canceled];
    [RetriesExhausted] is the error handed back when a retry cap is hit. *)
Inductive error :=
| Errorf (msg : string)
| PermanentError (cause : error)
| RetriesExhausted (last : error)
| Canceled.

(** [context.Context]: the background context, a cancellable child (the
    number names its cancel function) or a child with a timeout. *)
Inductive context :=
| Background
| WithCancel (parent : context) (id : nat)
| WithTimeout (parent : context) (timeout : Z).

(** [ctx.Err() != nil], given the set of cancel functions already called.
    Timers are not modelled: a timeout context is done when its parent is. *)
Fixpoint ctxDone (dead : gset nat) (c : context) : bool :=
  match c with
  | Background => false
  | WithCancel p id => bool_decide (id ∈ dead) || ctxDone dead p
  | WithTimeout p _ => ctxDone dead p
  end.

(** [time.Duration] is an [int64] count of nanoseconds. *)
Definition wrap64 (z : Z) : Z := (z + 2 ^ 63) mod 2 ^ 64 - 2 ^ 63.
Definition Millisecond : Z := 1000000.
Definition Second : Z := 1000000000.
Definition durationMul (n unit : Z) : Z := wrap64 (wrap64 n * unit).

(** [uint64(n)] for an [int] [n]. *)
Definition uint64 (n : Z) : Z := n mod 2 ^ 64.

(** ** Requests, messages, metadata *)

Record PublishRequest := {
  pubTopic : string;
  pubData : string;
  pubMetadata : gmap string string;
}.

Record ASBMessage := {
  MessageID : option string;
  Body : string;
}.

Record BulkMessageEntry := {
  EntryId : string;
  Event : string;
}.

Record BulkPublishRequest := {
  bulkEntries : list BulkMessageEntry;
  bulkTopic : string;
  bulkMetadata : gmap string string;
}.

Inductive BulkPublishStatus := PublishSucceeded | PublishFailed.

Record BulkPublishResponseEntry := {
  respEntryId : string;
  respStatus : BulkPublishStatus;
  respError : option error;
}.

Record BulkPublishResponse := { Statuses : list BulkPublishResponseEntry }.

Record SubscribeRequest := {
  subTopic : string;
  subMetadata : gmap string string;
}.

Record SubscriptionOpts := {
  RequireSessions : bool;
  MaxConcurrentSesions : Z;
}.

(** The fields of [impl.Metadata] that the component reads. *)
Record Metadata := {
  ConsumerID : string;
  TimeoutInSec : Z;
  PublishMaxRetries : Z;
  PublishInitialRetryIntervalInMs : Z;
  MinConnectionRecoveryInSec : Z;
  MaxConnectionRecoveryInSec : Z;
}.

(** ** Observable calls *)

Inductive event :=
| EvEnsureTopic (ctx : context) (topic : string)
| EvGetSender (ctx : context) (topic : string)
| EvSendMessage (ctx : context) (sender : nat) (msg : ASBMessage)
| EvCloseSender (topic : string)
| EvCloseAllSenders
| EvNewMessageBatch (ctx : context) (sender : nat) (maxBytes : Z)
| EvAddMessages (n : nat)
| EvSendMessageBatch (ctx : context) (sender : nat)
| EvEnsureSubscription (ctx : context) (consumer topic : string) (opts : SubscriptionOpts)
| EvConnect (topic : string)
| EvReceive (topic : string)
| EvCloseReceiver
| EvCloseSubscription
| EvCancel (id : nat)
| EvSleep (d : Z)
| EvWarnf (msg : string) (err : option error) (wait : option Z)
| EvInfof (msg : string)
| EvDebug (msg : string)
| EvErrorf (msg : string).

(** Is the event a call to the broker client? *)
Definition isBrokerCall (e : event) : bool :=
  match e with
  | EvEnsureTopic _ _ | EvGetSender _ _ | EvSendMessage _ _ _
  | EvCloseSender _ | EvCloseAllSenders | EvNewMessageBatch _ _ _
  | EvAddMessages _ | EvSendMessageBatch _ _
  | EvEnsureSubscription _ _ _ _ | EvConnect _ | EvReceive _
  | EvCloseReceiver | EvCloseSubscription => true
  | _ => false
  end.

(** ** Exponential backoff *)

(** Modelled from the spec: the [backoff.ExponentialBackOff] policy of the
    [backoff] library, which is not part of the repository (spec 3,
    BackoffState, and 4.1).  It holds the fields the component writes
    ([InitialInterval], [MaxInterval], [MaxElapsedTime]), the current
    interval, a fixed multiplier (a ratio) and its clock: [Clock n] is the
    time elapsed since the last reset as read at the [n]-th query. *)
Record ExponentialBackOff := {
  InitialInterval : Z;
  MaxInterval : Z;
  MaxElapsedTime : Z;
  MultiplierNum : Z;
  MultiplierDen : Z;
  currentInterval : Z;
  Clock : nat -> Z;
  ticks : nat;
}.

Definition setInitialInterval (d : Z) (b : ExponentialBackOff) : ExponentialBackOff :=
  {| InitialInterval := d; MaxInterval := MaxInterval b;
     MaxElapsedTime := MaxElapsedTime b; MultiplierNum := MultiplierNum b;
     MultiplierDen := MultiplierDen b; currentInterval := currentInterval b;
     Clock := Clock b; ticks := ticks b |}.

Definition setMaxInterval (d : Z) (b : ExponentialBackOff) : ExponentialBackOff :=
  {| InitialInterval := InitialInterval b; MaxInterval := d;
     MaxElapsedTime := MaxElapsedTime b; MultiplierNum := MultiplierNum b;
     MultiplierDen := MultiplierDen b; currentInterval := currentInterval b;
     Clock := Clock b; ticks := ticks b |}.

Definition setMaxElapsedTime (d : Z) (b : ExponentialBackOff) : ExponentialBackOff :=
  {| InitialInterval := InitialInterval b; MaxInterval := MaxInterval b;
     MaxElapsedTime := d; MultiplierNum := MultiplierNum b;
     MultiplierDen := MultiplierDen b; currentInterval := currentInterval b;
     Clock := Clock b; ticks := ticks b |}.

Definition setCurrent (d : Z) (n : nat) (b : ExponentialBackOff) : ExponentialBackOff :=
  {| InitialInterval := InitialInterval b; MaxInterval := MaxInterval b;
     MaxElapsedTime := MaxElapsedTime b; MultiplierNum := MultiplierNum b;
     MultiplierDen := MultiplierDen b; currentInterval := d;
     Clock := Clock b; ticks := n |}.

(** The sentinel a policy returns when it gives up. *)
Definition Stop : Z := -1.

(** Modelled from the spec: [reset()] restores
    [current_interval = initial_interval] (spec 4.1). *)
Definition expReset (b : ExponentialBackOff) : ExponentialBackOff :=
  setCurrent (InitialInterval b) (ticks b) b.

(** Modelled from the spec: the interval grows geometrically up to
    [max_interval] (spec 4.1). *)
Definition grow (b : ExponentialBackOff) : Z :=
  Z.min (MaxInterval b) (currentInterval b * MultiplierNum b / MultiplierDen b).

(** Modelled from the spec: [next()] returns the current interval and grows
    it; with a max elapsed time set (non zero) it returns the stop sentinel
    once that time is exhausted (spec 4.1). *)
Definition expNextBackOff (b : ExponentialBackOff) : Z * ExponentialBackOff :=
  let elapsed := Clock b (ticks b) in
  let next := currentInterval b in
  let b' := setCurrent (grow b) (S (ticks b)) b in
  if negb (MaxElapsedTime b =? 0) && (MaxElapsedTime b <? elapsed + next)
  then (Stop, b')
  else (next, b').

(** The [backoff.BackOff] interface with the two wrappers the component
    uses: [backoff.WithMaxRetries] and [backoff.WithContext]. *)
Inductive BackOff :=
| Exponential (b : ExponentialBackOff)
| WithMaxRetries (delegate : BackOff) (maxTries numTries : Z)
| WithContext (delegate : BackOff) (ctx : context).

(** Modelled from the spec: a policy with a max retry count returns the stop
    sentinel when the count is exhausted (spec 4.1); the context wrapper
    only carries the governing context, which the retrier checks while it
    waits (spec 4.2). *)
Fixpoint NextBackOff (b : BackOff) : Z * BackOff :=
  match b with
  | Exponential e => let (d, e') := expNextBackOff e in (d, Exponential e')
  | WithMaxRetries d maxTries numTries =>
      if maxTries <=? numTries then (Stop, b)
      else let (w, d') := NextBackOff d in (w, WithMaxRetries d' maxTries (numTries + 1))
  | WithContext d ctx => let (w, d') := NextBackOff d in (w, WithContext d' ctx)
  end.

Fixpoint Reset (b : BackOff) : BackOff :=
  match b with
  | Exponential e => Exponential (expReset e)
  | WithMaxRetries d maxTries _ => WithMaxRetries (Reset d) maxTries 0
  | WithContext d ctx => WithContext (Reset d) ctx
  end.

Fixpoint getContext (b : BackOff) : context :=
  match b with
  | WithContext _ ctx => ctx
  | WithMaxRetries d _ _ => getContext d
  | Exponential _ => Background
  end.

(** [grants n b]: the policy [b] hands out [n] waits in a row without
    giving up. *)
Fixpoint grants (n : nat) (b : BackOff) : bool :=
  match n with
  | O => true
  | S n' => let (d, b') := NextBackOff b in negb (d =? Stop) && grants n' b'
  end.

(** ** The world the component runs in *)

(** The goroutine started by [doSubscribe]: the reconnect loop with the
    variables its closure captures. *)
Record goroutine := {
  gCtx : context;
  gReq : SubscribeRequest;
  gOpts : SubscriptionOpts;
  gBulk : bool;               (* which receive function: bulk or single *)
  gPolicy : ExponentialBackOff;
}.

Record world := {
  senders : gmap string nat;  (* the client's sender cache, by topic *)
  created : nat;              (* senders created so far *)
  dead : gset nat;            (* cancel functions already called *)
  contexts : nat;             (* cancel functions created so far *)
  attempts : nat;             (* publish attempts made so far *)
  log : list event;           (* every observable call, oldest first *)
  spawned : list goroutine;   (* goroutines started so far *)
}.

Definition emptyWorld : world :=
  {| senders := ∅; created := 0; dead := ∅; contexts := 0; attempts := 0;
     log := []; spawned := [] |}.

Definition setSenders (m : gmap string nat) (n : nat) (w : world) : world :=
  {| senders := m; created := n; dead := dead w; contexts := contexts w;
     attempts := attempts w; log := log w; spawned := spawned w |}.

Definition setDead (d : gset nat) (n : nat) (w : world) : world :=
  {| senders := senders w; created := created w; dead := d; contexts := n;
     attempts := attempts w; log := log w; spawned := spawned w |}.

Definition setAttempts (n : nat) (w : world) : world :=
  {| senders := senders w; created := created w; dead := dead w;
     contexts := contexts w; attempts := n; log := log w; spawned := spawned w |}.

Definition addLog (e : event) (w : world) : world :=
  {| senders := senders w; created := created w; dead := dead w;
     contexts := contexts w; attempts := attempts w; log := log w ++ [e];
     spawned := spawned w |}.


(** A call returns a value and a new world, panics, or is cut short by the
    fuel of a loop. *)
Inductive res (A : Type) :=
| Ok (a : A) (w : world)
| Panic (msg : string)
| OutOfFuel.
Arguments Ok {A} a w.
Arguments Panic {A} msg.
Arguments OutOfFuel {A}.

Definition M (A : Type) : Type := world -> res A.

#[global] Instance M_ret : MRet M := fun A a w => Ok a w.
#[global] Instance M_bind : MBind M := fun A B f m w =>
  match m w with
  | Ok a w' => f a w'
  | Panic msg => Panic msg
  | OutOfFuel => OutOfFuel
  end.

Definition panic {A} (msg : string) : M A := fun _ => Panic msg.
Definition emit (e : event) : M unit := fun w => Ok tt (addLog e w).
Definition getWorld : M world := fun w => Ok w w.

(** Dereference of a pointer that is nil until [Init] has run. *)
Definition deref {A} (p : option A) : M A :=
  match p with
  | Some a => mret a
  | None => panic "nil pointer dereference"
  end.

(** Count the log entries that satisfy [p]. *)
Definition countEv (p : event -> bool) (l : list event) : nat :=
  length (filter (fun e => p e = true) l).

Definition isEnsureTopic (e : event) : bool :=
  match e with EvEnsureTopic _ _ => true | _ => false end.
Definition isCloseSender (e : event) : bool :=
  match e with EvCloseSender _ => true | _ => false end.
Definition isWarnf (e : event) : bool :=
  match e with EvWarnf _ _ _ => true | _ => false end.
Definition isInfof (e : event) : bool :=
  match e with EvInfof _ => true | _ => false end.
Definition isSleep (e : event) : bool :=
  match e with EvSleep _ => true | _ => false end.

(** ** The broker client *)

(** What the broker answers to the calls of one publish attempt or of one
    bulk publish.  A call that takes a context is told whether that context
    is already done. *)
Record replies := {
  onEnsureTopic : bool -> option error;
  onNewSender : bool -> option error;
  onSendMessage : bool -> option error;
  onNewMessageBatch : bool -> option error;
  onAddMessages : option error;
  onSendMessageBatch : bool -> option error;
}.

(** Modelled from the spec: [impl.Client.EnsureTopic], whose source is not
    in the file ([ensure_topic_exists(topic)], spec 6): one broker call. *)
Definition EnsureTopic (ctx : context) (topic : string)
    (reply : bool -> option error) : M (option error) :=
  fun w => Ok (reply (ctxDone (dead w) ctx)) (addLog (EvEnsureTopic ctx topic) w).

(** Modelled from the spec: [impl.Client.GetSender]
    ([get_sender(topic) -> Sender | error], spec 6): get-or-create on the
    sender cache (spec 5), the cached sender when there is one, a new sender
    (or the broker's error) when there is none. *)
Definition GetSender (ctx : context) (topic : string)
    (reply : bool -> option error) : M (nat + error) :=
  fun w =>
    let w1 := addLog (EvGetSender ctx topic) w in
    match senders w !! topic with
    | Some s => Ok (inl s) w1
    | None =>
        match reply (ctxDone (dead w) ctx) with
        | Some e => Ok (inr e) w1
        | None =>
            let s := created w in
            Ok (inl s) (setSenders (<[topic := s]> (senders w)) (S s) w1)
        end
    end.

(** Modelled from the spec: [impl.Client.CloseSender] ([close_sender(topic)],
    spec 6): the cached sender of the topic is closed and evicted (spec 5). *)
Definition CloseSender (topic : string) : M unit :=
  fun w =>
    Ok tt (setSenders (delete topic (senders w)) (created w)
             (addLog (EvCloseSender topic) w)).

(** Modelled from the spec: [impl.Client.CloseAllSenders]
    ([close_all_senders()], spec 6): every cached sender is closed. *)
Definition CloseAllSenders : M unit :=
  fun w => Ok tt (setSenders ∅ (created w) (addLog EvCloseAllSenders w)).

(** [servicebus.Sender.SendMessage]: one broker call. *)
Definition SendMessage (sender : nat) (ctx : context) (msg : ASBMessage)
    (reply : bool -> option error) : M (option error) :=
  fun w => Ok (reply (ctxDone (dead w) ctx)) (addLog (EvSendMessage ctx sender msg) w).

(** [servicebus.Sender.NewMessageBatch]: one broker call. *)
Definition NewMessageBatch (sender : nat) (ctx : context) (maxBytes : Z)
    (reply : bool -> option error) : M (option error) :=
  fun w => Ok (reply (ctxDone (dead w) ctx))
             (addLog (EvNewMessageBatch ctx sender maxBytes) w).

(** [servicebus.Sender.SendMessageBatch]: one broker call. *)
Definition SendMessageBatch (sender : nat) (ctx : context)
    (reply : bool -> option error) : M (option error) :=
  fun w => Ok (reply (ctxDone (dead w) ctx)) (addLog (EvSendMessageBatch ctx sender) w).

(** [context.WithCancel]: a child context with a fresh cancel function. *)
Definition newCancel (parent : context) : M (context * nat) :=
  fun w => Ok (WithCancel parent (contexts w), contexts w)
              (setDead (dead w) (S (contexts w)) w).

(** Calling a cancel function. *)
Definition cancel (id : nat) : M unit :=
  fun w => Ok tt (setDead ({[id]} ∪ dead w) (contexts w) (addLog (EvCancel id) w)).

(** ** The publish retrier *)

(** The timer wait of the retrier: it ends early when the governing context
    is done, and tells so. *)
Definition wait (ctx : context) (d : Z) : M bool :=
  fun w => Ok (ctxDone (dead w) ctx) (addLog (EvSleep d) w).

(** Modelled from the spec: [retry.NotifyRecover] over [backoff.RetryNotify],
    neither of which is part of the repository (spec 4.2, Publish Retrier).
    Invoke the attempt; a [PermanentError] stops the loop and its cause is
    surfaced unwrapped; any other error asks the policy for the next wait
    (stopping with the last error when a cap is hit), calls [onRetry], waits
    (a cancelled governing context aborts with a cancellation error) and
    invokes the attempt again; a success after a failure calls
    [onRecovered] first. *)
Fixpoint retryLoop (fuel : nat) (failed : bool) (operation : M (option error))
    (b : BackOff) (onRetry : error -> Z -> M unit) (onRecovered : M unit)
    : M (option error) :=
  match fuel with
  | O => fun _ => OutOfFuel
  | S fuel' =>
      err ← operation;
      match err with
      | None =>
          (if failed then onRecovered else mret tt) ;; mret None
      | Some (PermanentError cause) => mret (Some cause)
      | Some e =>
          let (next, b') := NextBackOff b in
          if next =? Stop then mret (Some (RetriesExhausted e))
          else
            onRetry e next ;;
            done ← wait (getContext b) next;
            if (done : bool) then mret (Some Canceled)
            else retryLoop fuel' true operation b' onRetry onRecovered
      end
  end.

Definition NotifyRecover (fuel : nat) (operation : M (option error)) (b : BackOff)
    (onRetry : error -> Z -> M unit) (onRecovered : M unit) : M (option error) :=
  retryLoop fuel false operation (Reset b) onRetry onRecovered.

(** ** The component *)

Record azureServiceBus := {
  metadata : option Metadata;      (* nil until Init *)
  client : bool;                   (* a.client != nil *)
  publishCtx : option context;
  publishCancel : option nat;
}.

(** [NewAzureServiceBusTopics]: nothing is set but the logger and the
    features. *)
Definition NewAzureServiceBusTopics : azureServiceBus :=
  {| metadata := None; client := false; publishCtx := None; publishCancel := None |}.

Section Component.

(** The helpers of other packages that the file calls and that decide
    nothing here: the error classifier, the message conversion, the
    metadata parsers, the client constructor, the defaults of
    [backoff.NewExponentialBackOff()] and a metadata key. *)
Variable IsNetworkError : error -> bool.
Variable IsRetriableAMQPError : error -> bool.
Variable NewASBMessageFromPubsubRequest : PublishRequest -> ASBMessage + error.
Variable ParseMetadata : gmap string string -> Metadata + error.
Variable NewClient : Metadata -> gmap string string -> option error.
Variable NewExponentialBackOff : ExponentialBackOff.
Variable GetElemOrDefaultFromMap : gmap string string -> string -> Z -> Z.
Variable IsTruthy : string -> bool.
Variable MaxBulkPubBytesKey : string.

Definition Init (properties : gmap string string) (a : azureServiceBus)
    : M (azureServiceBus * option error) :=
  match ParseMetadata properties with
  | inr err => mret (a, Some err)
  | inl md =>
      let a1 := {| metadata := Some md; client := client a;
                   publishCtx := publishCtx a; publishCancel := publishCancel a |} in
      match NewClient md properties with
      | Some err => mret (a1, Some err)
      | None =>
          '(ctx, id) ← newCancel Background;
          mret ({| metadata := Some md; client := true;
                   publishCtx := Some ctx; publishCancel := Some id |}, None)
      end
  end.

(** The broker's answers to the successive publish attempts: the attempt
    picks the answers of its rank and counts itself. *)
Definition nextReplies (script : nat -> replies) : M replies :=
  fun w => Ok (script (attempts w)) (setAttempts (S (attempts w)) w).

(** The attempt closure of [Publish] (lines 92-127). *)
Definition publishAttempt (md : Metadata) (pctx : context) (req : PublishRequest)
    (msg : ASBMessage) (script : nat -> replies) : M (option error) :=
  r ← nextReplies script;
  err ← EnsureTopic pctx (pubTopic req) (onEnsureTopic r);
  match err with
  | Some e => mret (Some e)
  | None =>
      s ← GetSender pctx (pubTopic req) (onNewSender r);
      match s with
      | inr e => mret (Some e)
      | inl sender =>
          let ctx := WithTimeout pctx (durationMul (TimeoutInSec md) Second) in
          err ← SendMessage sender ctx msg (onSendMessage r);
          match err with
          | Some e =>
              if IsNetworkError e then
                CloseSender (pubTopic req) ;; mret (Some e)
              else if IsRetriableAMQPError e then
                mret (Some e)
              else
                mret (Some (PermanentError e))
          | None => mret None
          end
      end
  end.

Definition publishEbo (md : Metadata) : ExponentialBackOff :=
  setInitialInterval (durationMul (PublishInitialRetryIntervalInMs md) Millisecond)
    NewExponentialBackOff.

Definition publishBackOff (md : Metadata) (pctx : context) : BackOff :=
  let ebo := publishEbo md in
  let bo := WithMaxRetries (Exponential ebo) (uint64 (PublishMaxRetries md)) 0 in
  WithContext bo pctx.

Definition msgIDOf (msg : ASBMessage) : string :=
  match MessageID msg with
  | Some id => id
  | None => "nil"
  end.

Definition publishOnRetry (msgID : string) (err : error) (d : Z) : M unit :=
  emit (EvWarnf msgID (Some err) (Some d)).

Definition publishOnRecovered (msgID : string) : M unit :=
  emit (EvInfof msgID).

Definition Publish (fuel : nat) (a : azureServiceBus) (req : PublishRequest)
    (script : nat -> replies) : M (option error) :=
  match NewASBMessageFromPubsubRequest req with
  | inr err => mret (Some err)
  | inl msg =>
      md ← deref (metadata a);
      pctx ← deref (publishCtx a);
      NotifyRecover fuel (publishAttempt md pctx req msg script)
        (publishBackOff md pctx)
        (publishOnRetry (msgIDOf msg)) (publishOnRecovered (msgIDOf msg))
  end.

(** A method call on [a.client], a pointer that is nil until [Init]. *)
Definition requireClient (a : azureServiceBus) : M unit :=
  if client a then mret tt else panic "nil pointer dereference".

(** Modelled from the spec: [pubsub.NewBulkPublishResponse], whose source is
    not in the file: the response marks every entry of the request with the
    one status and error of the call (spec 4.2, bulk variant, and 9). *)
Definition NewBulkPublishResponse (entries : list BulkMessageEntry)
    (status : BulkPublishStatus) (err : option error) : BulkPublishResponse :=
  {| Statuses := map (fun e => {| respEntryId := EntryId e; respStatus := status;
                                  respError := err |}) entries |}.

Definition defaultMaxBulkSubCount : Z := 100.
Definition defaultMaxBulkPubBytes : Z := 1024 * 128.
Definition defaultSesssionIdleTimeoutInSec : Z := 60.
Definition sessionIdleTimeoutMetadataKey : string := "sessionIdleTimeout".

(** [impl.UpdateASBBatchMessageWithBulkPublishRequest]: the entries are added
    to the batch; the conversion can fail. *)
Definition UpdateASBBatchMessageWithBulkPublishRequest (req : BulkPublishRequest)
    (reply : option error) : M (option error) :=
  fun w => Ok reply (addLog (EvAddMessages (length (bulkEntries req))) w).

Definition BulkPublish (a : azureServiceBus) (ctx : context)
    (req : BulkPublishRequest) (r : replies)
    : M (BulkPublishResponse * option error) :=
  if (length (bulkEntries req) =? 0)%nat then
    emit (EvWarnf "Empty bulk publish request, skipping" None None) ;;
    mret (NewBulkPublishResponse (bulkEntries req) PublishSucceeded None, None)
  else
    requireClient a ;;
    pctx ← deref (publishCtx a);
    err ← EnsureTopic pctx (bulkTopic req) (onEnsureTopic r);
    match err with
    | Some e => mret (NewBulkPublishResponse (bulkEntries req) PublishFailed (Some e), Some e)
    | None =>
    s ← GetSender ctx (bulkTopic req) (onNewSender r);
    match s with
    | inr e => mret (NewBulkPublishResponse (bulkEntries req) PublishFailed (Some e), Some e)
    | inl sender =>
    let maxBytes := GetElemOrDefaultFromMap (bulkMetadata req) MaxBulkPubBytesKey
                      defaultMaxBulkPubBytes in
    err ← NewMessageBatch sender ctx maxBytes (onNewMessageBatch r);
    match err with
    | Some e => mret (NewBulkPublishResponse (bulkEntries req) PublishFailed (Some e), Some e)
    | None =>
    err ← UpdateASBBatchMessageWithBulkPublishRequest req (onAddMessages r);
    match err with
    | Some e => mret (NewBulkPublishResponse (bulkEntries req) PublishFailed (Some e), Some e)
    | None =>
    err ← SendMessageBatch sender ctx (onSendMessageBatch r);
    match err with
    | Some e => mret (NewBulkPublishResponse (bulkEntries req) PublishFailed (Some e), Some e)
    | None => mret (NewBulkPublishResponse (bulkEntries req) PublishSucceeded None, None)
    end end end end end.

(** ** Subscribing *)



(** The policy built by [doSubscribe] (lines 275-278): three field writes on
    a new policy. *)
Definition reconnectPolicy (md : Metadata) : ExponentialBackOff :=
  let bo := NewExponentialBackOff in
  let bo := setMaxElapsedTime 0 bo in
  let bo := setInitialInterval (durationMul (MinConnectionRecoveryInSec md) Second) bo in
  setMaxInterval (durationMul (MaxConnectionRecoveryInSec md) Second) bo.






Definition Close (a : azureServiceBus) : M (option error) :=
  id ← deref (publishCancel a);
  cancel id ;;
  requireClient a ;;
  CloseAllSenders ;;
  mret None.

(** ** The reconnect loop *)

(** What happens during one call of [ConnectAndReceive] or
    [ConnectAndReceiveWithSessions]: the result of [sub.Connect], whether the
    receive function called [onFirstSuccess], the error it returned, and the
    cancel functions called by others meanwhile. *)
Record round := {
  connectErr : option error;
  firstSuccess : bool;
  receiveErr : option error;
  cancels : list nat;
}.

Definition cancelAll (ids : list nat) : M unit :=
  fun w => Ok tt (setDead (list_to_set ids ∪ dead w) (contexts w) w).

Definition isCanceled (e : error) : bool :=
  match e with Canceled => true | _ => false end.

(** The callback [onFirstSuccess] of [doSubscribe]: [bo.Reset()]. *)
Definition onFirstSuccess (bo : ExponentialBackOff) : ExponentialBackOff :=
  expReset bo.

Definition ConnectAndReceive (subscribeCtx : context) (req : SubscribeRequest)
    (r : round) (bo : ExponentialBackOff) : M (ExponentialBackOff * option error) :=
  '(_, receiverCancel) ← newCancel subscribeCtx;
  emit (EvConnect (subTopic req)) ;;
  cancelAll (cancels r) ;;
  match connectErr r with
  | Some err =>
      (if isCanceled err then mret tt
       else emit (EvErrorf "Could not instantiate session subscription")) ;;
      cancel receiverCancel ;;
      mret (bo, None)
  | None =>
      emit (EvDebug "Renewing locks") ;;
      emit (EvReceive (subTopic req)) ;;
      let bo1 := if firstSuccess r then onFirstSuccess bo else bo in
      match receiveErr r with
      | Some err =>
          emit EvCloseReceiver ;;
          cancel receiverCancel ;;
          mret (bo1, Some err)
      | None =>
          emit EvCloseSubscription ;;
          emit EvCloseReceiver ;;
          cancel receiverCancel ;;
          mret (bo1, None)
      end
  end.

(** [ConnectAndReceiveWithSessions] as the reconnect loop sees it: the call
    returns only through [<-subscribeCtx.Done()] (lines 390 and 394), so
    with a live context it never returns ([None]); session receivers may
    call [onFirstSuccess] meanwhile.  The slot pool inside is the subject of
    [SessionPool] below. *)
Definition ConnectAndReceiveWithSessions (subscribeCtx : context)
    (r : round) (bo : ExponentialBackOff) : M (option ExponentialBackOff) :=
  cancelAll (cancels r) ;;
  w ← getWorld;
  let bo1 := if firstSuccess r then onFirstSuccess bo else bo in
  if ctxDone (dead w) subscribeCtx then
    emit EvCloseSubscription ;; mret (Some bo1)
  else mret None.

(** Where the reconnect goroutine is once the environment has played the
    rounds it was given: it has returned, or it is inside a connect-and-
    receive call with its policy in some state. *)
Inductive loopState :=
| Stopped
| Running (bo : ExponentialBackOff).

(** The rest of an iteration (lines 294-302). *)
Definition afterConnection (subscribeCtx : context) (bo : ExponentialBackOff)
    (continue : ExponentialBackOff -> M loopState) : M loopState :=
  w ← getWorld;
  if ctxDone (dead w) subscribeCtx then
    emit (EvDebug "Context canceled; will not reconnect") ;; mret Stopped
  else
    let (d, bo') := expNextBackOff bo in
    emit (EvWarnf "Subscription lost connection, attempting to reconnect" None (Some d)) ;;
    emit (EvSleep d) ;;
    continue bo'.

(** The goroutine of [doSubscribe] (lines 285-304), run against the rounds
    the environment plays. *)
Fixpoint reconnectLoop (g : goroutine) (bo : ExponentialBackOff)
    (script : list round) : M loopState :=
  match script with
  | [] => mret (Running bo)
  | r :: rest =>
      if RequireSessions (gOpts g) then
        back ← ConnectAndReceiveWithSessions (gCtx g) r bo;
        match back with
        | None => mret (Running bo)
        | Some bo1 => afterConnection (gCtx g) bo1 (fun b => reconnectLoop g b rest)
        end
      else
        '(bo1, _) ← ConnectAndReceive (gCtx g) (gReq g) r bo;
        afterConnection (gCtx g) bo1 (fun b => reconnectLoop g b rest)
  end.

Definition runGoroutine (g : goroutine) (script : list round) : M loopState :=
  reconnectLoop g (gPolicy g) script.

End Component.

(** The waits of a log, oldest first. *)
Definition sleepOf (e : event) : option Z :=
  match e with EvSleep d => Some d | _ => None end.
Definition sleeps (l : list event) : list Z := omap sleepOf l.

(** A list of durations never decreases. *)
Fixpoint nondecreasing (l : list Z) : Prop :=
  match l with
  | [] => True
  | x :: rest => match rest with [] => True | y :: _ => x <= y end /\ nondecreasing rest
  end.

(** ** The session slot pool *)

(** [ConnectAndReceiveWithSessions] (lines 374-460) as a transition system:
    the main loop and the session goroutines it starts take turns, one step
    at a time, in any order. *)
Module SessionPool.

(** Where a session goroutine is: inside [sub.Connect] (no receiver yet),
    with its receiver open (lock renewal and receive running), past the
    deferred [receiver.Close] (or past a failed connect) and about to return
    its slot, or gone. *)
Inductive phase := Connecting | Receiving | Releasing | Finished.

#[global] Instance phase_eq_dec : EqDecision phase.
Proof. solve_decision. Defined.

Record pool := {
  capacity : nat;          (* cap(sessionsChan) *)
  tokens : nat;            (* len(sessionsChan) *)
  holding : bool;          (* the main loop has taken a slot (line 392) *)
  returned : bool;         (* the main loop has returned *)
  ctxCancelled : bool;     (* subscribeCtx is done *)
  sessions : list phase;   (* the session goroutines started so far *)
}.

(** Lines 375-378: the channel is made and filled; [make] panics on a
    negative size. *)
Definition newPool (maxConcurrentSessions : Z) : option pool :=
  if maxConcurrentSessions <? 0 then None
  else Some {| capacity := Z.to_nat maxConcurrentSessions;
               tokens := Z.to_nat maxConcurrentSessions;
               holding := false; returned := false; ctxCancelled := false;
               sessions := [] |}.

Inductive action :=
| Cancel                    (* someone cancels subscribeCtx *)
| MainDone                  (* outer select, case <-subscribeCtx.Done() *)
| MainTake                  (* outer select, case <-sessionsChan *)
| MainInnerDone             (* inner select, case <-subscribeCtx.Done() *)
| MainSpawn                 (* inner select, default: go func() *)
| ConnectOk (i : nat)       (* sub.Connect returns a receiver *)
| ConnectFail (i : nat)     (* sub.Connect returns an error *)
| ReceiveEnd (i : nat)      (* receiveAndBlockFn returns; receiver.Close *)
| Release (i : nat).        (* sessionsChan <- struct{}{} *)

Definition setSession (i : nat) (ph : phase) (s : pool) : pool :=
  {| capacity := capacity s; tokens := tokens s; holding := holding s;
     returned := returned s; ctxCancelled := ctxCancelled s;
     sessions := <[i := ph]> (sessions s) |}.

Definition inPhase (i : nat) (ph : phase) (s : pool) : bool :=
  bool_decide (sessions s !! i = Some ph).

(** One step; [None] when the step cannot be taken in that state (a receive
    on an empty channel, a send on a full one, a goroutine that is
    elsewhere). *)
Definition step (a : action) (s : pool) : option pool :=
  match a with
  | Cancel =>
      Some {| capacity := capacity s; tokens := tokens s; holding := holding s;
              returned := returned s; ctxCancelled := true; sessions := sessions s |}
  | MainDone =>
      if negb (returned s) && negb (holding s) && ctxCancelled s then
        Some {| capacity := capacity s; tokens := tokens s; holding := holding s;
                returned := true; ctxCancelled := ctxCancelled s;
                sessions := sessions s |}
      else None
  | MainTake =>
      if negb (returned s) && negb (holding s) then
        match tokens s with
        | O => None
        | S t =>
            Some {| capacity := capacity s; tokens := t; holding := true;
                    returned := returned s; ctxCancelled := ctxCancelled s;
                    sessions := sessions s |}
        end
      else None
  | MainInnerDone =>
      if negb (returned s) && holding s && ctxCancelled s then
        Some {| capacity := capacity s; tokens := tokens s; holding := true;
                returned := true; ctxCancelled := ctxCancelled s;
                sessions := sessions s |}
      else None
  | MainSpawn =>
      if negb (returned s) && holding s && negb (ctxCancelled s) then
        Some {| capacity := capacity s; tokens := tokens s; holding := false;
                returned := returned s; ctxCancelled := ctxCancelled s;
                sessions := sessions s ++ [Connecting] |}
      else None
  | ConnectOk i =>
      if inPhase i Connecting s then Some (setSession i Receiving s) else None
  | ConnectFail i =>
      if inPhase i Connecting s then Some (setSession i Releasing s) else None
  | ReceiveEnd i =>
      if inPhase i Receiving s then Some (setSession i Releasing s) else None
  | Release i =>
      if inPhase i Releasing s && (tokens s <? capacity s)%nat then
        Some {| capacity := capacity s; tokens := S (tokens s); holding := holding s;
                returned := returned s; ctxCancelled := ctxCancelled s;
                sessions := <[i := Finished]> (sessions s) |}
      else None
  end.

Fixpoint run (acts : list action) (s : pool) : option pool :=
  match acts with
  | [] => Some s
  | a :: rest => match step a s with Some s' => run rest s' | None => None end
  end.

(** The session receivers open right now. *)
Definition openSessions (s : pool) : nat :=
  length (filter (fun ph => ph = Receiving) (sessions s)).

(** The slots that are out of the channel: one per session goroutine that
    has not returned its slot, one for the main loop while it holds one. *)
Definition slotsHeld (s : pool) : nat :=
  (length (filter (fun ph => ph ≠ Finished) (sessions s))
   + (if holding s then 1 else 0))%nat.

(** How far a session goroutine has got. *)
Definition rank (ph : phase) : nat :=
  match ph with
  | Connecting => 0
  | Receiving => 1
  | Releasing => 2
  | Finished => 3
  end.

(** Every slot is in the channel or held; the main loop returns only once
    the context is done. *)
Definition poolInvariant (s : pool) : Prop :=
  (tokens s + slotsHeld s = capacity s)%nat /\
  (returned s = true -> ctxCancelled s = true).

End SessionPool.

(** ** Concrete configurations *)

Module Demo.

Definition isNet (e : error) : bool :=
  match e with Errorf "connection lost" => true | _ => false end.
Definition isAmqp (e : error) : bool :=
  match e with Errorf "server busy" => true | _ => false end.
Definition mkMsg (r : PublishRequest) : ASBMessage + error :=
  inl {| MessageID := Some "m1"; Body := pubData r |}.

Definition ebo : ExponentialBackOff :=
  {| InitialInterval := 500 * Millisecond; MaxInterval := 60 * Second;
     MaxElapsedTime := 900 * Second; MultiplierNum := 3; MultiplierDen := 2;
     currentInterval := 500 * Millisecond; Clock := fun _ => 0; ticks := 0 |}.

Definition md : Metadata :=
  {| ConsumerID := "app"; TimeoutInSec := 60; PublishMaxRetries := 5;
     PublishInitialRetryIntervalInMs := 500;
     MinConnectionRecoveryInSec := 2; MaxConnectionRecoveryInSec := 300 |}.

Definition pctx : context := WithCancel Background 0.

Definition bus : azureServiceBus :=
  {| metadata := Some md; client := true; publishCtx := Some pctx;
     publishCancel := Some 0%nat |}.

(** The world right after [Init]. *)
Definition w0 : world :=
  {| senders := ∅; created := 0; dead := ∅; contexts := 1; attempts := 0;
     log := []; spawned := [] |}.

Definition allFine : replies :=
  {| onEnsureTopic := fun _ => None; onNewSender := fun _ => None;
     onSendMessage := fun _ => None; onNewMessageBatch := fun _ => None;
     onAddMessages := None; onSendMessageBatch := fun _ => None |}.

Definition sendFails (e : error) : replies :=
  {| onEnsureTopic := fun _ => None; onNewSender := fun _ => None;
     onSendMessage := fun _ => Some e; onNewMessageBatch := fun _ => None;
     onAddMessages := None; onSendMessageBatch := fun _ => None |}.

Definition ensureFails (e : error) : replies :=
  {| onEnsureTopic := fun _ => Some e; onNewSender := fun _ => None;
     onSendMessage := fun _ => None; onNewMessageBatch := fun _ => None;
     onAddMessages := None; onSendMessageBatch := fun _ => None |}.

(** A broker that refuses every call made under a context that is done. *)
Definition honoursContext : replies :=
  {| onEnsureTopic := fun done => if done then Some Canceled else None;
     onNewSender := fun done => if done then Some Canceled else None;
     onSendMessage := fun done => if done then Some Canceled else None;
     onNewMessageBatch := fun done => if done then Some Canceled else None;
     onAddMessages := None;
     onSendMessageBatch := fun done => if done then Some Canceled else None |}.

Definition req : PublishRequest :=
  {| pubTopic := "orders"; pubData := "payload"; pubMetadata := ∅ |}.

(** Two network failures, then success. *)
Definition twoNetworkFailures (n : nat) : replies :=
  if (n <? 2)%nat then sendFails (Errorf "connection lost") else allFine.

(** Topic provisioning fails once with an error of neither class. *)
Definition provisioningFailsOnce (n : nat) : replies :=
  if (n <? 1)%nat then ensureFails (Errorf "forbidden") else allFine.

(** Topic provisioning fails once with a network error. *)
Definition provisioningLosesConnection (n : nat) : replies :=
  if (n <? 1)%nat then ensureFails (Errorf "connection lost") else allFine.

(** A world in which an earlier publish has left sender 7 cached. *)
Definition w1 : world :=
  {| senders := {[ "orders" := 7%nat ]}; created := 8; dead := ∅; contexts := 1;
     attempts := 0; log := []; spawned := [] |}.

Definition bulkReq : BulkPublishRequest :=
  {| bulkEntries := [ {| EntryId := "1"; Event := "a" |};
                      {| EntryId := "2"; Event := "b" |} ];
     bulkTopic := "orders"; bulkMetadata := ∅ |}.

Definition emptyBulkReq : BulkPublishRequest :=
  {| bulkEntries := []; bulkTopic := "orders"; bulkMetadata := ∅ |}.

Definition getElem (m : gmap string string) (k : string) (d : Z) : Z := d.

Definition subReq : SubscribeRequest :=
  {| subTopic := "orders"; subMetadata := ∅ |}.

Definition callerCtx : context := WithCancel Background 1.

(** The world after [Init] and the creation of the caller's context. *)
Definition w2 : world :=
  {| senders := ∅; created := 0; dead := ∅; contexts := 2; attempts := 0;
     log := []; spawned := [] |}.

Definition lostConnection : round :=
  {| connectErr := None; firstSuccess := false;
     receiveErr := Some (Errorf "connection lost"); cancels := [] |}.

Definition reconnector : goroutine :=
  {| gCtx := callerCtx; gReq := subReq;
     gOpts := {| RequireSessions := false; MaxConcurrentSesions := 8 |};
     gBulk := false; gPolicy := reconnectPolicy ebo md |}.



(** A configuration with a negative retry cap. *)
Definition mdNegative : Metadata :=
  {| ConsumerID := "app"; TimeoutInSec := 60; PublishMaxRetries := -1;
     PublishInitialRetryIntervalInMs := 500;
     MinConnectionRecoveryInSec := 2; MaxConnectionRecoveryInSec := 300 |}.

Definition busNegative : azureServiceBus :=
  {| metadata := Some mdNegative; client := true; publishCtx := Some pctx;
     publishCancel := Some 0%nat |}.

Definition parseOk (m : gmap string string) : Metadata + error := inl md.
Definition parseFails (m : gmap string string) : Metadata + error :=
  inr (Errorf "bad metadata").
Definition clientOk (m : Metadata) (p : gmap string string) : option error := None.

(** A connection on which a first message arrives before it is lost. *)
Definition firstMessage : round :=
  {| connectErr := None; firstSuccess := true;
     receiveErr := Some (Errorf "connection lost"); cancels := [] |}.


(** A session pool whose context has been cancelled while one session was
    receiving. *)
Definition cancelledPool : SessionPool.pool :=
  {| SessionPool.capacity := 2; SessionPool.tokens := 1;
     SessionPool.holding := false; SessionPool.returned := false;
     SessionPool.ctxCancelled := true;
     SessionPool.sessions := [SessionPool.Receiving] |}.

End Demo.

(** ** Vocabulary of the statements *)

Definition isPermanent (e : error) : bool :=
  match e with PermanentError _ => true | _ => false end.

(** Answers of the broker, under a live context, that make a publish attempt
    fail in [SendMessage] with a retriable network error. *)
Definition networkFailure (IsNetworkError : error -> bool) (r : replies) : Prop :=
  onEnsureTopic r false = None /\ onNewSender r false = None /\
  exists e, onSendMessage r false = Some e /\
            IsNetworkError e = true /\ isPermanent e = false.

(** Answers of the broker, under a live context, that let a publish attempt
    go through. *)
Definition goesThrough (r : replies) : Prop :=
  onEnsureTopic r false = None /\ onNewSender r false = None /\
  onSendMessage r false = None.


(** The context an event was called with, for the calls that take one. *)
Definition eventCtx (e : event) : option context :=
  match e with
  | EvEnsureTopic c _ | EvGetSender c _ | EvSendMessage c _ _
  | EvNewMessageBatch c _ _ | EvSendMessageBatch c _
  | EvEnsureSubscription c _ _ _ => Some c
  | _ => None
  end.

(** A component on which [Init] has succeeded. *)
Definition initialised (a : azureServiceBus) : Prop :=
  exists (md : Metadata) (id : nat),
    metadata a = Some md /\ client a = true /\
    publishCtx a = Some (WithCancel Background id) /\ publishCancel a = Some id.

(** The invariant of a backoff state (spec 3): intervals are durations, the
    current and the initial interval are bounded by the maximum, and the
    multiplier is at least one. *)
Definition wellFormed (b : ExponentialBackOff) : Prop :=
  0 <= currentInterval b <= MaxInterval b /\
  0 <= InitialInterval b <= MaxInterval b /\
  0 < MultiplierDen b <= MultiplierNum b.

(** The policy after a round of [ConnectAndReceive]: reset when the receive
    function ran and called [onFirstSuccess], untouched otherwise. *)
Definition policyAfterRound (r : round) (bo : ExponentialBackOff) : ExponentialBackOff :=
  match connectErr r with
  | Some _ => bo
  | None => if firstSuccess r then expReset bo else bo
  end.

(** Every cancel function a context depends on was created among the first
    [n] of the world. *)
Fixpoint ctxBelow (n : nat) (c : context) : Prop :=
  match c with
  | Background => True
  | WithCancel p id => (id < n)%nat /\ ctxBelow n p
  | WithTimeout p _ => ctxBelow n p
  end.

(** Further event classes. *)
Definition isGetSender (e : event) : bool :=
  match e with EvGetSender _ _ => true | _ => false end.
Definition isNewMessageBatch (e : event) : bool :=
  match e with EvNewMessageBatch _ _ _ => true | _ => false end.
Definition isAddMessages (e : event) : bool :=
  match e with EvAddMessages _ => true | _ => false end.
Definition isSendMessageBatch (e : event) : bool :=
  match e with EvSendMessageBatch _ _ => true | _ => false end.
Definition isConnect (e : event) : bool :=
  match e with EvConnect _ => true | _ => false end.
Definition isReceive (e : event) : bool :=
  match e with EvReceive _ => true | _ => false end.
Definition isCloseReceiver (e : event) : bool :=
  match e with EvCloseReceiver => true | _ => false end.
Definition isCloseSubscription (e : event) : bool :=
  match e with EvCloseSubscription => true | _ => false end.
Definition isCancel (e : event) : bool :=
  match e with EvCancel _ => true | _ => false end.

(** The context depends on the cancel function [id]. *)
Fixpoint ctxMentions (id : nat) (c : context) : Prop :=
  match c with
  | Background => False
  | WithCancel p id' => id' = id \/ ctxMentions id p
  | WithTimeout p _ => ctxMentions id p
  end.

(** Only cancel functions that exist have been called. *)
Definition consistent (w : world) : Prop :=
  forall id : nat, id ∈ dead w -> (id < contexts w)%nat.


(** All five steps of a bulk publish go through, whatever the state of the
    contexts. *)
Definition bulkGoesThrough (r : replies) (cached : bool) (d1 d2 : bool) : Prop :=
  onEnsureTopic r d1 = None /\ (cached = false -> onNewSender r d2 = None) /\
  onNewMessageBatch r d2 = None /\ onAddMessages r = None /\
  onSendMessageBatch r d2 = None.

(** * Properties *)

(** ** Generic facts *)

Lemma countEv_app (p : event -> bool) (l1 l2 : list event) :
  countEv p (l1 ++ l2) = (countEv p l1 + countEv p l2)%nat.
Proof. unfold countEv. by rewrite filter_app, length_app. Qed.

Lemma getContext_NextBackOff (b : BackOff) :
  getContext (NextBackOff b).2 = getContext b.
Proof.
  induction b as [e | d IH maxTries numTries | d IH ctx]; simpl.
  - by destruct (expNextBackOff e).
  - destruct (maxTries <=? numTries); [done |].
    destruct (NextBackOff d); simpl in *. done.
  - by destruct (NextBackOff d).
Qed.

Lemma grants_WithContext (n : nat) : forall (d : BackOff) (ctx : context),
  grants n (WithContext d ctx) = grants n d.
Proof.
  induction n as [| n IH]; intros d ctx; simpl; [done |].
  destruct (NextBackOff d) as [w d']. by rewrite IH.
Qed.

Lemma grants_WithMaxRetries (n : nat) : forall (d : BackOff) (maxTries numTries : Z),
  numTries + Z.of_nat n <= maxTries ->
  grants n (WithMaxRetries d maxTries numTries) = grants n d.
Proof.
  induction n as [| n IH]; intros d maxTries numTries Hle; simpl; [done |].
  destruct (Z.leb_spec maxTries numTries) as [Hfull | Hroom]; [lia |].
  destruct (NextBackOff d) as [w d']. rewrite IH by lia. done.
Qed.

(** With no max elapsed time and intervals that cannot be mistaken for the
    sentinel, the exponential policy never gives up. *)
Lemma expNextBackOff_unbounded (b : ExponentialBackOff) :
  MaxElapsedTime b = 0 -> (expNextBackOff b).1 = currentInterval b.
Proof. intros H. unfold expNextBackOff. rewrite H. done. Qed.

(** ** Publish *)

Ltac run_M :=
  unfold mbind, M_bind, mret, M_ret, emit, wait, deref, panic, getWorld in *; simpl in *.

Section PublishFacts.

Variable IsNetworkError : error -> bool.
Variable IsRetriableAMQPError : error -> bool.
Variable md : Metadata.
Variable pctx : context.
Variable req : PublishRequest.
Variable msg : ASBMessage.
Variable script : nat -> replies.

Local Abbreviation attempt :=
  (publishAttempt IsNetworkError IsRetriableAMQPError md pctx req msg script).
Local Abbreviation sendCtx := (WithTimeout pctx (durationMul (TimeoutInSec md) Second)).

(** What the broker is told when the attempt starts in world [w]. *)
Local Abbreviation done w := (ctxDone (dead w) pctx).

(** An attempt always returns; it counts itself, calls no cancel function,
    and neither sleeps nor notifies. *)
Lemma publishAttempt_frame (w : world) :
  exists err w1 l,
    attempt w = Ok err w1 /\ log w1 = log w ++ l /\
    attempts w1 = S (attempts w) /\ dead w1 = dead w /\
    countEv isWarnf l = O /\ countEv isInfof l = O /\ countEv isSleep l = O /\
    countEv isEnsureTopic l = 1%nat.
Proof.
  unfold publishAttempt, nextReplies, EnsureTopic, GetSender, SendMessage, CloseSender.
  run_M.
  destruct (onEnsureTopic _ _); [eexists _, _, [_]; repeat split; done |].
  destruct (senders w !! pubTopic req) eqn:Hs; simpl; rewrite ?Hs; simpl;
    [| destruct (onNewSender _ _); simpl ];
    try destruct (onSendMessage _ _) as [e |]; simpl;
    try (destruct (IsNetworkError e); simpl;
         [| destruct (IsRetriableAMQPError e); simpl]);
    (eexists _, _, _; split; [reflexivity |]; simpl;
     repeat rewrite <- app_assoc; simpl; repeat split; done).
Qed.

(** The attempt whose send fails with a network error: the error comes back
    as it is, and the sender it used is closed and evicted last. *)
Lemma publishAttempt_network (w : world) (e : error) :
  onEnsureTopic (script (attempts w)) (done w) = None ->
  (senders w !! pubTopic req = None ->
   onNewSender (script (attempts w)) (done w) = None) ->
  onSendMessage (script (attempts w)) (done w) = Some e ->
  IsNetworkError e = true ->
  exists w1 s,
    attempt w = Ok (Some e) w1 /\
    log w1 = log w ++ [EvEnsureTopic pctx (pubTopic req);
                       EvGetSender pctx (pubTopic req);
                       EvSendMessage sendCtx s msg;
                       EvCloseSender (pubTopic req)] /\
    attempts w1 = S (attempts w) /\ dead w1 = dead w /\
    senders w1 !! pubTopic req = None.
Proof.
  intros He Hn Hs Hnet.
  unfold publishAttempt, nextReplies, EnsureTopic, GetSender, SendMessage, CloseSender.
  run_M. rewrite He.
  destruct (senders w !! pubTopic req) eqn:Hc; simpl; rewrite ?Hc; simpl.
  - rewrite Hs; simpl. rewrite Hnet; simpl.
    eexists _, _; split; [reflexivity |]; simpl.
    repeat rewrite <- app_assoc; simpl. repeat split; try done.
    apply lookup_delete_eq.
  - rewrite Hn by done; simpl. rewrite Hs; simpl. rewrite Hnet; simpl.
    eexists _, _; split; [reflexivity |]; simpl.
    repeat rewrite <- app_assoc; simpl. repeat split; try done.
    apply lookup_delete_eq.
Qed.

(** The attempt whose send fails with a retriable AMQP error that is not a
    network error: the error comes back as it is, no sender is closed, and
    the sender it used stays cached. *)
Lemma publishAttempt_amqp (w : world) (e : error) :
  onEnsureTopic (script (attempts w)) (done w) = None ->
  (senders w !! pubTopic req = None ->
   onNewSender (script (attempts w)) (done w) = None) ->
  onSendMessage (script (attempts w)) (done w) = Some e ->
  IsNetworkError e = false ->
  IsRetriableAMQPError e = true ->
  exists w1 s,
    attempt w = Ok (Some e) w1 /\
    log w1 = log w ++ [EvEnsureTopic pctx (pubTopic req);
                       EvGetSender pctx (pubTopic req);
                       EvSendMessage sendCtx s msg] /\
    attempts w1 = S (attempts w) /\ dead w1 = dead w /\
    senders w1 !! pubTopic req = Some s /\
    (forall s0, senders w !! pubTopic req = Some s0 -> s = s0).
Proof.
  intros He Hn Hs Hnet Hamqp.
  unfold publishAttempt, nextReplies, EnsureTopic, GetSender, SendMessage, CloseSender.
  run_M. rewrite He.
  destruct (senders w !! pubTopic req) eqn:Hc; simpl; rewrite ?Hc; simpl.
  - rewrite Hs; simpl. rewrite Hnet, Hamqp; simpl.
    eexists _, _; split; [reflexivity |]; simpl.
    repeat rewrite <- app_assoc; simpl. repeat split; try done. congruence.
  - rewrite Hn by done; simpl. rewrite Hs; simpl. rewrite Hnet, Hamqp; simpl.
    eexists _, _; split; [reflexivity |]; simpl.
    repeat rewrite <- app_assoc; simpl. repeat split; try done.
    apply lookup_insert_eq.
Qed.

(** The attempt whose send fails with an error of neither class: the error
    comes back wrapped as permanent, and no sender is closed. *)
Lemma publishAttempt_other (w : world) (e : error) :
  onEnsureTopic (script (attempts w)) (done w) = None ->
  (senders w !! pubTopic req = None ->
   onNewSender (script (attempts w)) (done w) = None) ->
  onSendMessage (script (attempts w)) (done w) = Some e ->
  IsNetworkError e = false ->
  IsRetriableAMQPError e = false ->
  exists w1 s,
    attempt w = Ok (Some (PermanentError e)) w1 /\
    log w1 = log w ++ [EvEnsureTopic pctx (pubTopic req);
                       EvGetSender pctx (pubTopic req);
                       EvSendMessage sendCtx s msg] /\
    attempts w1 = S (attempts w) /\ dead w1 = dead w /\
    senders w1 !! pubTopic req = Some s.
Proof.
  intros He Hn Hs Hnet Hamqp.
  unfold publishAttempt, nextReplies, EnsureTopic, GetSender, SendMessage, CloseSender.
  run_M. rewrite He.
  destruct (senders w !! pubTopic req) eqn:Hc; simpl; rewrite ?Hc; simpl.
  - rewrite Hs; simpl. rewrite Hnet, Hamqp; simpl.
    eexists _, _; split; [reflexivity |]; simpl.
    repeat rewrite <- app_assoc; simpl. repeat split; done.
  - rewrite Hn by done; simpl. rewrite Hs; simpl. rewrite Hnet, Hamqp; simpl.
    eexists _, _; split; [reflexivity |]; simpl.
    repeat rewrite <- app_assoc; simpl. repeat split; try done.
    apply lookup_insert_eq.
Qed.

(** The attempt that fails before the send, in [EnsureTopic] or in
    [GetSender]: the error comes back as it is, whatever its class, and no
    sender is closed. *)
Lemma publishAttempt_setup (w : world) (e : error) :
  onEnsureTopic (script (attempts w)) (done w) = Some e \/
  (onEnsureTopic (script (attempts w)) (done w) = None /\
   senders w !! pubTopic req = None /\
   onNewSender (script (attempts w)) (done w) = Some e) ->
  exists w1 l,
    attempt w = Ok (Some e) w1 /\ log w1 = log w ++ l /\
    countEv isCloseSender l = O /\
    attempts w1 = S (attempts w) /\ dead w1 = dead w /\
    senders w1 = senders w.
Proof.
  intros [He | (He & Hc & Hn)];
    unfold publishAttempt, nextReplies, EnsureTopic, GetSender, SendMessage, CloseSender;
    run_M; rewrite He; simpl.
  - eexists _, [_]; repeat split; done.
  - rewrite ?Hc; simpl; rewrite Hn; simpl.
    eexists _, _; split; [reflexivity |]; simpl.
    repeat rewrite <- app_assoc; simpl. repeat split; done.
Qed.

(** The attempt that goes through. *)
Lemma publishAttempt_success (w : world) :
  onEnsureTopic (script (attempts w)) (done w) = None ->
  (senders w !! pubTopic req = None ->
   onNewSender (script (attempts w)) (done w) = None) ->
  onSendMessage (script (attempts w)) (done w) = None ->
  exists w1 s,
    attempt w = Ok None w1 /\
    log w1 = log w ++ [EvEnsureTopic pctx (pubTopic req);
                       EvGetSender pctx (pubTopic req);
                       EvSendMessage sendCtx s msg] /\
    attempts w1 = S (attempts w) /\ dead w1 = dead w.
Proof.
  intros He Hn Hs.
  unfold publishAttempt, nextReplies, EnsureTopic, GetSender, SendMessage, CloseSender.
  run_M. rewrite He.
  destruct (senders w !! pubTopic req) eqn:Hc; simpl; rewrite ?Hc; simpl.
  - rewrite Hs; simpl. eexists _, _; split; [reflexivity |]; simpl.
    repeat rewrite <- app_assoc; simpl. repeat split; done.
  - rewrite Hn by done; simpl. rewrite Hs; simpl.
    eexists _, _; split; [reflexivity |]; simpl.
    repeat rewrite <- app_assoc; simpl. repeat split; done.
Qed.

End PublishFacts.

(** ** The retry loop of Publish *)

Section RetryFacts.

Variable IsNetworkError : error -> bool.
Variable IsRetriableAMQPError : error -> bool.
Variable NewASBMessageFromPubsubRequest : PublishRequest -> ASBMessage + error.
Variable NewExponentialBackOff : ExponentialBackOff.
Variable md : Metadata.
Variable pctx : context.
Variable req : PublishRequest.
Variable msg : ASBMessage.
Variable script : nat -> replies.

Local Abbreviation attempt :=
  (publishAttempt IsNetworkError IsRetriableAMQPError md pctx req msg script).
Local Abbreviation onRetry := (publishOnRetry (msgIDOf msg)).
Local Abbreviation onRecovered := (publishOnRecovered (msgIDOf msg)).

(** A permanent error ends the loop at once, and its cause comes back
    unwrapped. *)
Lemma retryLoop_permanent (fuel : nat) (failed : bool) (b : BackOff)
    (w w1 : world) (cause : error) :
  attempt w = Ok (Some (PermanentError cause)) w1 ->
  retryLoop (S fuel) failed attempt b onRetry onRecovered w = Ok (Some cause) w1.
Proof. intros H. simpl. run_M. by rewrite H. Qed.

(** Any other error is retried: notification, wait, next attempt. *)
Lemma retryLoop_retry (fuel : nat) (failed : bool) (b b' : BackOff)
    (w w1 : world) (e : error) (d : Z) :
  attempt w = Ok (Some e) w1 ->
  isPermanent e = false ->
  NextBackOff b = (d, b') ->
  d <> Stop ->
  ctxDone (dead w1) (getContext b) = false ->
  retryLoop (S fuel) failed attempt b onRetry onRecovered w =
  retryLoop fuel true attempt b' onRetry onRecovered
    (addLog (EvSleep d) (addLog (EvWarnf (msgIDOf msg) (Some e) (Some d)) w1)).
Proof.
  intros H Hp Hn Hd Hc. simpl. run_M. rewrite H.
  destruct e; try discriminate Hp; rewrite Hn;
    (destruct (Z.eqb_spec d Stop) as [-> | _]; [done |]);
    unfold publishOnRetry; run_M; by rewrite Hc.
Qed.

(** A success ends the loop, after the recovery notification when an
    earlier attempt had failed. *)
Lemma retryLoop_success (fuel : nat) (failed : bool) (b : BackOff) (w w1 : world) :
  attempt w = Ok None w1 ->
  retryLoop (S fuel) failed attempt b onRetry onRecovered w =
  Ok None (if failed then addLog (EvInfof (msgIDOf msg)) w1 else w1).
Proof.
  intros H. simpl. run_M. rewrite H. unfold publishOnRecovered.
  destruct failed; done.
Qed.

(** [N] network failures, then a success. *)
Lemma retryLoop_recovers (N : nat) :
  forall (fuel : nat) (failed : bool) (b : BackOff) (w : world),
    (N < fuel)%nat ->
    grants N b = true ->
    getContext b = pctx ->
    ctxDone (dead w) pctx = false ->
    (forall k, (k < N)%nat -> networkFailure IsNetworkError (script (attempts w + k)%nat)) ->
    goesThrough (script (attempts w + N)%nat) ->
    exists w' l,
      retryLoop fuel failed attempt b onRetry onRecovered w =
        Ok None (if failed || (0 <? N)%nat then addLog (EvInfof (msgIDOf msg)) w' else w') /\
      log w' = log w ++ l /\
      attempts w' = (attempts w + N + 1)%nat /\
      countEv isEnsureTopic l = S N /\
      countEv isWarnf l = N /\
      countEv isSleep l = N /\
      countEv isCloseSender l = N /\
      countEv isInfof l = O.
Proof.
  induction N as [| N IH]; intros fuel failed b w Hfuel Hgr Hctx Hlive Hfail Hok.
  - destruct fuel as [| fuel]; [lia |].
    rewrite Nat.add_0_r in Hok. destruct Hok as (He & Hn & Hs).
    destruct (publishAttempt_success IsNetworkError IsRetriableAMQPError
                md pctx req msg script w) as (w1 & s & Hrun & Hlog & Hatt & _).
    { by rewrite Hlive. } { by rewrite Hlive. } { by rewrite Hlive. }
    exists w1, [EvEnsureTopic pctx (pubTopic req); EvGetSender pctx (pubTopic req);
                EvSendMessage (WithTimeout pctx (durationMul (TimeoutInSec md) Second)) s msg].
    rewrite (retryLoop_success _ _ _ _ _ Hrun), orb_false_r.
    repeat split; try done. lia.
  - destruct fuel as [| fuel]; [lia |].
    destruct (Hfail O ltac:(lia)) as (He & Hn & e & Hs & Hnet & Hperm).
    rewrite Nat.add_0_r in He, Hn, Hs.
    destruct (publishAttempt_network IsNetworkError IsRetriableAMQPError
                md pctx req msg script w e) as (w1 & s & Hrun & Hlog & Hatt & Hdead & _).
    { by rewrite Hlive. } { by rewrite Hlive. } { by rewrite Hlive. } { done. }
    simpl in Hgr. destruct (NextBackOff b) as [d b'] eqn:Hnext.
    apply andb_true_iff in Hgr as [Hd Hgr].
    assert (d <> Stop) as Hd'.
    { intros ->. by rewrite Z.eqb_refl in Hd. }
    rewrite (retryLoop_retry fuel failed b b' w w1 e d Hrun Hperm Hnext Hd').
    2: { rewrite Hctx, Hdead. done. }
    set (w2 := addLog (EvSleep d) (addLog (EvWarnf (msgIDOf msg) (Some e) (Some d)) w1)).
    destruct (IH fuel true b' w2) as (w' & l & Hloop & Hlog' & Hatt' & Hc1 & Hc2 & Hc3 & Hc4 & Hc5).
    { lia. } { done. }
    { rewrite <- Hctx. pose proof (getContext_NextBackOff b) as Hg.
      by rewrite Hnext in Hg. }
    { simpl. by rewrite Hdead. }
    { intros k Hk. simpl. rewrite Hatt.
      replace (S (attempts w) + k)%nat with (attempts w + S k)%nat by lia.
      apply Hfail. lia. }
    { simpl. rewrite Hatt.
      by replace (S (attempts w) + N)%nat with (attempts w + S N)%nat by lia. }
    exists w', ([EvEnsureTopic pctx (pubTopic req); EvGetSender pctx (pubTopic req);
                 EvSendMessage (WithTimeout pctx (durationMul (TimeoutInSec md) Second)) s msg;
                 EvCloseSender (pubTopic req);
                 EvWarnf (msgIDOf msg) (Some e) (Some d); EvSleep d] ++ l).
    rewrite Hloop. simpl orb. rewrite orb_true_r.
    split; [done |]. split.
    { rewrite Hlog'. simpl. rewrite Hlog. by repeat rewrite <- app_assoc. }
    split. { rewrite Hatt'. simpl. rewrite Hatt. lia. }
    rewrite !countEv_app, Hc1, Hc2, Hc3, Hc4, Hc5. done.
Qed.

(** The loop of [Publish] always returns: the retry cap bounds it. *)
Lemma retryLoop_returns (maxTries : Z) (n : nat) :
  forall (fuel : nat) (failed : bool) (d : BackOff) (numTries : Z) (w : world),
    maxTries <= numTries + Z.of_nat n ->
    (n < fuel)%nat ->
    exists r w',
      retryLoop fuel failed attempt (WithContext (WithMaxRetries d maxTries numTries) pctx)
        onRetry onRecovered w = Ok r w'.
Proof.
  induction n as [| n IH]; intros fuel failed d numTries w Hcap Hfuel;
    (destruct fuel as [| fuel]; [lia |]);
    destruct (publishAttempt_frame IsNetworkError IsRetriableAMQPError
                md pctx req msg script w) as (err & w1 & l & Hrun & _);
    simpl; run_M; rewrite Hrun.
  - destruct err as [e |]; [| destruct failed; unfold publishOnRecovered; run_M; eauto].
    destruct (Z.leb_spec maxTries numTries); [| lia].
    destruct e; simpl; eauto.
  - destruct err as [e |]; [| destruct failed; unfold publishOnRecovered; run_M; eauto].
    destruct (Z.leb_spec maxTries numTries) as [Hfull | Hroom].
    + destruct e; simpl; eauto.
    + destruct (NextBackOff d) as [next d'] eqn:Hnext.
      destruct e; simpl; eauto;
        (destruct (next =? Stop); [eauto |]);
        unfold publishOnRetry; run_M;
        (destruct (ctxDone _ pctx); [eauto |]);
        apply IH; lia.
Qed.

End RetryFacts.

(** ** Publish: the claims *)

Section PublishClaims.

Variable IsNetworkError : error -> bool.
Variable IsRetriableAMQPError : error -> bool.
Variable NewASBMessageFromPubsubRequest : PublishRequest -> ASBMessage + error.
Variable NewExponentialBackOff : ExponentialBackOff.

Local Abbreviation publish :=
  (Publish IsNetworkError IsRetriableAMQPError NewASBMessageFromPubsubRequest
     NewExponentialBackOff).
Local Abbreviation attempt :=
  (publishAttempt IsNetworkError IsRetriableAMQPError).

Lemma Publish_unfold (fuel : nat) (a : azureServiceBus) (req : PublishRequest)
    (script : nat -> replies) (msg : ASBMessage) (md : Metadata) (pctx : context)
    (w : world) :
  NewASBMessageFromPubsubRequest req = inl msg ->
  metadata a = Some md ->
  publishCtx a = Some pctx ->
  publish fuel a req script w =
  retryLoop fuel false (attempt md pctx req msg script)
    (WithContext
       (WithMaxRetries (Exponential (expReset (publishEbo NewExponentialBackOff md)))
          (uint64 (PublishMaxRetries md)) 0) pctx)
    (publishOnRetry (msgIDOf msg)) (publishOnRecovered (msgIDOf msg)) w.
Proof.
  intros Hmsg Hmd Hctx. unfold Publish. rewrite Hmsg, Hmd, Hctx. reflexivity.
Qed.

(** On an initialised component [Publish] returns, given fuel beyond the
    retry cap. *)
Lemma Publish_returns (fuel : nat) (a : azureServiceBus) (req : PublishRequest)
    (script : nat -> replies) (msg : ASBMessage) (md : Metadata) (pctx : context)
    (w : world) :
  NewASBMessageFromPubsubRequest req = inl msg ->
  metadata a = Some md ->
  publishCtx a = Some pctx ->
  (Z.to_nat (uint64 (PublishMaxRetries md)) < fuel)%nat ->
  exists r w', publish fuel a req script w = Ok r w'.
Proof.
  intros Hmsg Hmd Hctx Hfuel.
  rewrite (Publish_unfold fuel a req script msg md pctx w Hmsg Hmd Hctx).
  eapply retryLoop_returns; [| exact Hfuel].
  unfold uint64 in *. pose proof (Z.mod_pos_bound (PublishMaxRetries md) (2 ^ 64)). lia.
Qed.


(** C5.  [N >= 1] attempts in a row fail in [SendMessage] with retriable
    network errors and the next one goes through, on a component that has not
    been closed, with [N] within the retry cap (and the exponential policy
    itself not giving up within [N] waits): [Publish] returns nil, has made
    exactly [N + 1] attempts, [N] retry notifications and [N] waits, and its
    last action is the one recovery notification. *)
Theorem Publish_recovers_after_network_failures
    (N fuel : nat) (a : azureServiceBus) (req : PublishRequest)
    (script : nat -> replies) (msg : ASBMessage) (md : Metadata) (pctx : context)
    (w : world) :
  NewASBMessageFromPubsubRequest req = inl msg ->
  metadata a = Some md ->
  publishCtx a = Some pctx ->
  ctxDone (dead w) pctx = false ->
  (1 <= N)%nat ->
  Z.of_nat N <= uint64 (PublishMaxRetries md) ->
  grants N (Exponential (expReset (publishEbo NewExponentialBackOff md))) = true ->
  (forall k, (k < N)%nat -> networkFailure IsNetworkError (script (attempts w + k)%nat)) ->
  goesThrough (script (attempts w + N)%nat) ->
  (N < fuel)%nat ->
  exists w' l,
    publish fuel a req script w = Ok None w' /\
    log w' = log w ++ l ++ [EvInfof (msgIDOf msg)] /\
    attempts w' = (attempts w + N + 1)%nat /\
    countEv isEnsureTopic l = S N /\
    countEv isWarnf l = N /\
    countEv isSleep l = N /\
    countEv isCloseSender l = N /\
    countEv isInfof l = O.
Proof.
  intros Hmsg Hmd Hctx Hlive HN Hcap Hgr Hfail Hok Hfuel.
  rewrite (Publish_unfold fuel a req script msg md pctx w Hmsg Hmd Hctx).
  destruct (retryLoop_recovers IsNetworkError IsRetriableAMQPError md pctx req msg script
              N fuel false
              (WithContext
                 (WithMaxRetries (Exponential (expReset (publishEbo NewExponentialBackOff md)))
                    (uint64 (PublishMaxRetries md)) 0) pctx) w)
    as (w' & l & Hloop & Hlog & Hatt & Hc); try done.
  { rewrite grants_WithContext, grants_WithMaxRetries by lia. done. }
  destruct N as [| N]; [lia |]. simpl in Hloop.
  exists (addLog (EvInfof (msgIDOf msg)) w'), l.
  split; [done |]. split; [| done].
  simpl. rewrite Hlog. by rewrite <- app_assoc.
Qed.

(** C1, as the code has it.  A publish attempt that fails in [SendMessage]
    with error [e]: when [e] is a network error, the attempt closes the
    cached sender of the topic as its last action (so before any next
    attempt, which finds no cached sender) and returns [e] as it is; when [e]
    is not a network error and is a retriable AMQP error, the attempt returns
    [e] as it is, closes no sender and leaves the sender it used in the cache;
    otherwise it returns [e] wrapped as permanent, and closes no sender.  An
    attempt that fails before the send, in [EnsureTopic] or [GetSender],
    returns the error as it is, whatever its class, and leaves the sender
    cache alone.  The retry loop stops on a permanent error, returning its
    cause, and on any other error notifies, waits and runs the attempt again
    (as long as the policy grants a wait and the context is live). *)
Theorem Publish_failure_handling
    (md : Metadata) (pctx : context) (req : PublishRequest) (msg : ASBMessage)
    (script : nat -> replies) (w : world) (e : error) :
  (onEnsureTopic (script (attempts w)) (ctxDone (dead w) pctx) = None ->
   (senders w !! pubTopic req = None ->
    onNewSender (script (attempts w)) (ctxDone (dead w) pctx) = None) ->
   onSendMessage (script (attempts w)) (ctxDone (dead w) pctx) = Some e ->
   exists w1 s,
     attempt md pctx req msg script w =
       Ok (Some (if IsNetworkError e then e
                 else if IsRetriableAMQPError e then e else PermanentError e)) w1 /\
     log w1 = log w ++
       [EvEnsureTopic pctx (pubTopic req); EvGetSender pctx (pubTopic req);
        EvSendMessage (WithTimeout pctx (durationMul (TimeoutInSec md) Second)) s msg] ++
       (if IsNetworkError e then [EvCloseSender (pubTopic req)] else []) /\
     senders w1 !! pubTopic req = (if IsNetworkError e then None else Some s) /\
     (forall s0, senders w !! pubTopic req = Some s0 -> s = s0)) /\
  (onEnsureTopic (script (attempts w)) (ctxDone (dead w) pctx) = Some e \/
   (onEnsureTopic (script (attempts w)) (ctxDone (dead w) pctx) = None /\
    senders w !! pubTopic req = None /\
    onNewSender (script (attempts w)) (ctxDone (dead w) pctx) = Some e) ->
   exists w1 l,
     attempt md pctx req msg script w = Ok (Some e) w1 /\
     log w1 = log w ++ l /\ countEv isCloseSender l = O /\
     senders w1 = senders w) /\
  (forall (fuel : nat) (failed : bool) (b : BackOff) (w1 : world) (err : error),
     attempt md pctx req msg script w = Ok (Some err) w1 ->
     match err with
     | PermanentError cause =>
         retryLoop (S fuel) failed (attempt md pctx req msg script) b
           (publishOnRetry (msgIDOf msg)) (publishOnRecovered (msgIDOf msg)) w =
         Ok (Some cause) w1
     | _ =>
         forall (d : Z) (b' : BackOff),
           NextBackOff b = (d, b') -> d <> Stop ->
           ctxDone (dead w1) (getContext b) = false ->
           retryLoop (S fuel) failed (attempt md pctx req msg script) b
             (publishOnRetry (msgIDOf msg)) (publishOnRecovered (msgIDOf msg)) w =
           retryLoop fuel true (attempt md pctx req msg script) b'
             (publishOnRetry (msgIDOf msg)) (publishOnRecovered (msgIDOf msg))
             (addLog (EvSleep d) (addLog (EvWarnf (msgIDOf msg) (Some err) (Some d)) w1))
     end).
Proof.
  split; [| split].
  - intros He Hn Hs.
    destruct (IsNetworkError e) eqn:Hnet; [| destruct (IsRetriableAMQPError e) eqn:Hamqp].
    + destruct (publishAttempt_network IsNetworkError IsRetriableAMQPError
                  md pctx req msg script w e He Hn Hs Hnet)
        as (w1 & s & Hrun & Hlog & _ & _ & Hcache).
      revert Hrun Hlog Hcache.
      unfold publishAttempt, nextReplies, EnsureTopic, GetSender, SendMessage, CloseSender.
      run_M. rewrite He.
      destruct (senders w !! pubTopic req) eqn:Hc; simpl; rewrite ?Hc; simpl;
        [| rewrite Hn by done; simpl]; rewrite Hs; simpl; rewrite Hnet; simpl;
        intros [= <-] Hlog Hcache; eexists _, _; split; try reflexivity; simpl;
        repeat rewrite <- app_assoc; simpl; repeat split; try done;
        try apply lookup_delete_eq; congruence.
    + destruct (publishAttempt_amqp IsNetworkError IsRetriableAMQPError
                  md pctx req msg script w e He Hn Hs Hnet Hamqp)
        as (w1 & s & Hrun & Hlog & _ & _ & Hcache & Hsame).
      exists w1, s. rewrite app_nil_r. done.
    + revert He Hn Hs.
      unfold publishAttempt, nextReplies, EnsureTopic, GetSender, SendMessage, CloseSender.
      run_M. intros He Hn Hs. rewrite He.
      destruct (senders w !! pubTopic req) eqn:Hc; simpl; rewrite ?Hc; simpl;
        [| rewrite Hn by done; simpl]; rewrite Hs; simpl; rewrite Hnet, Hamqp; simpl;
        eexists _, _; split; try reflexivity; simpl;
        repeat rewrite <- app_assoc; simpl; repeat split; try done;
        try apply lookup_insert_eq; congruence.
  - intros Hsetup.
    destruct (publishAttempt_setup IsNetworkError IsRetriableAMQPError
                md pctx req msg script w e Hsetup)
      as (w1 & l & Hrun & Hlog & Hclose & _ & _ & Hcache).
    by exists w1, l.
  - intros fuel failed b w1 err Hrun.
    destruct err; try (intros d b' Hnext Hd Hlive; by apply retryLoop_retry).
    by apply retryLoop_permanent.
Qed.

End PublishClaims.

(** *** Concrete runs *)

(** Topic provisioning fails once with an error that is neither a network
    error nor a retriable AMQP error: the attempt returns it unwrapped and
    [Publish] runs a second attempt, after one notification and one wait.
    And topic provisioning fails once with a network error while a sender is
    cached: no sender is closed, and the second attempt sends on the same
    sender. *)
Lemma Publish_retries_unclassified_failures :
  Demo.isNet (Errorf "forbidden") = false /\
  Demo.isAmqp (Errorf "forbidden") = false /\
  (exists w',
     Publish Demo.isNet Demo.isAmqp Demo.mkMsg Demo.ebo 6 Demo.bus Demo.req
       Demo.provisioningFailsOnce Demo.w0 = Ok None w' /\
     attempts w' = 2%nat /\
     log w' =
       [EvEnsureTopic Demo.pctx "orders";
        EvWarnf "m1" (Some (Errorf "forbidden")) (Some 500000000);
        EvSleep 500000000;
        EvEnsureTopic Demo.pctx "orders";
        EvGetSender Demo.pctx "orders";
        EvSendMessage (WithTimeout Demo.pctx 60000000000) 0
          {| MessageID := Some "m1"; Body := "payload" |};
        EvInfof "m1"]) /\
  Demo.isNet (Errorf "connection lost") = true /\
  (exists w',
     Publish Demo.isNet Demo.isAmqp Demo.mkMsg Demo.ebo 6 Demo.bus Demo.req
       Demo.provisioningLosesConnection Demo.w1 = Ok None w' /\
     senders Demo.w1 !! "orders" = Some 7%nat /\
     countEv isCloseSender (log w') = O /\
     log w' =
       [EvEnsureTopic Demo.pctx "orders";
        EvWarnf "m1" (Some (Errorf "connection lost")) (Some 500000000);
        EvSleep 500000000;
        EvEnsureTopic Demo.pctx "orders";
        EvGetSender Demo.pctx "orders";
        EvSendMessage (WithTimeout Demo.pctx 60000000000) 7
          {| MessageID := Some "m1"; Body := "payload" |};
        EvInfof "m1"]).
Proof.
  split; [reflexivity |]. split; [reflexivity |]. split.
  { eexists. split; [vm_compute; reflexivity |]. split; reflexivity. }
  split; [reflexivity |].
  eexists. split; [vm_compute; reflexivity |].
  split; [vm_compute; reflexivity |]. split; reflexivity.
Qed.


Lemma Publish_recovers_after_network_failures_witness :
  exists w' l,
    Publish Demo.isNet Demo.isAmqp Demo.mkMsg Demo.ebo 3 Demo.bus Demo.req
      Demo.twoNetworkFailures Demo.w0 = Ok None w' /\
    log w' = log Demo.w0 ++ l ++ [EvInfof "m1"] /\
    attempts w' = 3%nat /\
    countEv isEnsureTopic l = 3%nat /\
    countEv isWarnf l = 2%nat.
Proof.
  destruct (Publish_recovers_after_network_failures Demo.isNet Demo.isAmqp Demo.mkMsg
              Demo.ebo 2 3 Demo.bus Demo.req Demo.twoNetworkFailures
              {| MessageID := Some "m1"; Body := "payload" |} Demo.md Demo.pctx Demo.w0)
    as (w' & l & H1 & H2 & H3 & H4 & H5 & _).
  - reflexivity.
  - reflexivity.
  - reflexivity.
  - reflexivity.
  - lia.
  - vm_compute. discriminate.
  - vm_compute. reflexivity.
  - intros k Hk. simpl.
    destruct k as [| [| k]]; [| | lia];
      (split; [reflexivity |]; split; [reflexivity |];
       exists (Errorf "connection lost"); repeat split; reflexivity).
  - repeat split; reflexivity.
  - lia.
  - exists w', l. repeat split; assumption.
Defined.

(** ** BulkPublish and Close *)

Section BulkClaims.

Variable GetElemOrDefaultFromMap : gmap string string -> string -> Z -> Z.
Variable MaxBulkPubBytesKey : string.

Local Abbreviation bulkPublish := (BulkPublish GetElemOrDefaultFromMap MaxBulkPubBytesKey).

(** C8.  A bulk publish request without entries returns at once, with a nil
    error and the response that marks its (zero) entries as succeeded; the
    only thing it does is log a warning: no broker call is made and the
    sender cache is left as it is.  The component need not even be
    initialised. *)
Theorem BulkPublish_empty_request
    (a : azureServiceBus) (ctx : context) (req : BulkPublishRequest) (r : replies)
    (w : world) :
  bulkEntries req = [] ->
  exists w',
    bulkPublish a ctx req r w =
      Ok (NewBulkPublishResponse (bulkEntries req) PublishSucceeded None, None) w' /\
    Statuses (NewBulkPublishResponse (bulkEntries req) PublishSucceeded None) = [] /\
    log w' = log w ++ [EvWarnf "Empty bulk publish request, skipping" None None] /\
    countEv isBrokerCall (log w') = countEv isBrokerCall (log w) /\
    senders w' = senders w /\ created w' = created w.
Proof.
  intros Hempty. unfold BulkPublish. rewrite Hempty. simpl. run_M.
  eexists. split; [reflexivity |]. simpl.
  rewrite countEv_app. repeat split; try done.
Qed.

(** C10.  A bulk publish request with entries, on an initialised component:
    the first call is [EnsureTopic], made with the publish context of the
    component, and the broker's answer to it is the one for the state of
    that context, whatever the caller's context is; if it fails nothing else
    is called.  Every later call that takes a context ([GetSender],
    [NewMessageBatch], [SendMessageBatch]) is made with the caller's. *)
Theorem BulkPublish_provisions_under_publish_context
    (a : azureServiceBus) (ctx pctx : context) (req : BulkPublishRequest)
    (r : replies) (w : world) :
  bulkEntries req <> [] ->
  client a = true ->
  publishCtx a = Some pctx ->
  exists resp err w' l,
    bulkPublish a ctx req r w = Ok (resp, err) w' /\
    log w' = log w ++ EvEnsureTopic pctx (bulkTopic req) :: l /\
    Forall (fun e => isEnsureTopic e = false /\
                     forall c, eventCtx e = Some c -> c = ctx) l /\
    match onEnsureTopic r (ctxDone (dead w) pctx) with
    | Some e => err = Some e /\ l = []
    | None => exists l', l = EvGetSender ctx (bulkTopic req) :: l'
    end.
Proof.
  intros Hne Hclient Hctx. unfold BulkPublish, requireClient.
  destruct (bulkEntries req) as [| entry entries] eqn:Hentries; [done |].
  rewrite Hclient, Hctx.
  unfold EnsureTopic, GetSender, NewMessageBatch, SendMessageBatch,
    UpdateASBBatchMessageWithBulkPublishRequest.
  run_M.
  destruct (onEnsureTopic r _) as [e |].
  { eexists _, _, _, []. repeat split; done. }
  destruct (senders w !! bulkTopic req) eqn:Hc; simpl; rewrite ?Hc; simpl;
    [| destruct (onNewSender r _); simpl ];
    try (destruct (onNewMessageBatch r _); simpl;
         [| destruct (onAddMessages r); simpl;
            [| destruct (onSendMessageBatch r _); simpl ]]);
    (eexists _, _, _, _; split; [reflexivity |]; simpl;
     repeat rewrite <- app_assoc; simpl; split; [reflexivity |];
     split; [| eexists; reflexivity];
     repeat (apply Forall_cons; split;
             [split; [reflexivity | simpl; intros c Hc'; congruence] |]);
     apply Forall_nil; done).
Qed.


End BulkClaims.

(** [Init] leaves the component initialised when it succeeds. *)
Lemma Init_initialised
    (ParseMetadata : gmap string string -> Metadata + error)
    (NewClient : Metadata -> gmap string string -> option error)
    (properties : gmap string string) (a a' : azureServiceBus) (w w' : world) :
  Init ParseMetadata NewClient properties a w = Ok (a', None) w' ->
  initialised a' /\ senders w' = senders w /\ log w' = log w.
Proof.
  unfold Init, newCancel. run_M.
  destruct (ParseMetadata properties) as [md | err]; [| done].
  destruct (NewClient md properties); [done |]. simpl.
  intros [= <- <-]. split; [| done]. by exists md, (contexts w).
Qed.

Lemma BulkPublish_empty_request_witness :
  BulkPublish Demo.getElem "maxBulkPubBytes" NewAzureServiceBusTopics Demo.callerCtx
    Demo.emptyBulkReq Demo.allFine emptyWorld =
  Ok ({| Statuses := [] |}, None)
     (addLog (EvWarnf "Empty bulk publish request, skipping" None None) emptyWorld).
Proof.
  destruct (BulkPublish_empty_request Demo.getElem "maxBulkPubBytes"
              NewAzureServiceBusTopics Demo.callerCtx Demo.emptyBulkReq Demo.allFine
              emptyWorld eq_refl) as (w' & H & _).
  reflexivity.
Defined.

(** The caller's context is cancelled, the publish context is live and the
    broker refuses every call made under a cancelled context: the topic is
    provisioned all the same, and it is [GetSender] that is refused. *)
Lemma BulkPublish_provisions_under_publish_context_witness :
  ctxDone {[ 1%nat ]} Demo.callerCtx = true /\
  ctxDone {[ 1%nat ]} Demo.pctx = false /\
  exists resp w' l,
    BulkPublish Demo.getElem "maxBulkPubBytes" Demo.bus Demo.callerCtx Demo.bulkReq
      Demo.honoursContext (setDead {[ 1%nat ]} 2 Demo.w0) = Ok (resp, Some Canceled) w' /\
    log w' = EvEnsureTopic Demo.pctx "orders" :: EvGetSender Demo.callerCtx "orders" :: l.
Proof.
  split; [vm_compute; reflexivity |]. split; [vm_compute; reflexivity |].
  destruct (BulkPublish_provisions_under_publish_context Demo.getElem "maxBulkPubBytes"
              Demo.bus Demo.callerCtx Demo.pctx Demo.bulkReq Demo.honoursContext
              (setDead {[ 1%nat ]} 2 Demo.w0))
    as (resp & err & w' & l & Hrun & Hlog & _ & Hfirst).
  - discriminate.
  - reflexivity.
  - reflexivity.
  - assert (onEnsureTopic Demo.honoursContext
              (ctxDone (dead (setDead {[ 1%nat ]} 2 Demo.w0)) Demo.pctx) = None) as Hlive
      by (vm_compute; reflexivity).
    rewrite Hlive in Hfirst. destruct Hfirst as [l' ->].
    assert (err = Some Canceled) as ->.
    { revert Hrun. vm_compute. congruence. }
    exists resp, w', l'. split; [exact Hrun | exact Hlog].
Defined.


(** ** The reconnect loop *)

Lemma sleeps_app (l1 l2 : list event) : sleeps (l1 ++ l2) = sleeps l1 ++ sleeps l2.
Proof. unfold sleeps. apply omap_app. Qed.

Lemma nondecreasing_cons (x : Z) (l : list Z) :
  Forall (fun y => x <= y) l -> nondecreasing l -> nondecreasing (x :: l).
Proof.
  intros Hall Hl. split; [| exact Hl].
  destruct l as [| y l]; [done |]. by inversion Hall.
Qed.

Lemma grow_ge (b : ExponentialBackOff) :
  wellFormed b -> currentInterval b <= grow b <= MaxInterval b.
Proof.
  intros ((Hc0 & Hc1) & _ & (Hd & Hn)). unfold grow. split; [| lia].
  apply Z.min_glb; [done |].
  apply Z.div_le_lower_bound; [done |]. nia.
Qed.

Lemma wellFormed_next (b : ExponentialBackOff) :
  wellFormed b -> wellFormed (expNextBackOff b).2.
Proof.
  intros Hwf. pose proof (grow_ge b Hwf) as Hg.
  destruct Hwf as ((Hc0 & Hc1) & Hi & Hm).
  unfold expNextBackOff, wellFormed. destruct (_ && _); simpl; (split; [lia | done]).
Qed.

Lemma wellFormed_reset (b : ExponentialBackOff) : wellFormed b -> wellFormed (expReset b).
Proof. intros (Hc & Hi & Hm). unfold expReset. by split. Qed.

Lemma wellFormed_after (r : round) (b : ExponentialBackOff) :
  wellFormed b -> wellFormed (policyAfterRound r b).
Proof.
  intros Hwf. unfold policyAfterRound.
  destruct (connectErr r); [done |]. destruct (firstSuccess r); [| done].
  by apply wellFormed_reset.
Qed.

Lemma expNextBackOff_fields (b : ExponentialBackOff) :
  MaxElapsedTime (expNextBackOff b).2 = MaxElapsedTime b /\
  MaxInterval (expNextBackOff b).2 = MaxInterval b /\
  currentInterval (expNextBackOff b).2 = grow b.
Proof. unfold expNextBackOff. by destruct (_ && _). Qed.

Lemma policyAfterRound_fields (r : round) (b : ExponentialBackOff) :
  MaxElapsedTime (policyAfterRound r b) = MaxElapsedTime b /\
  MaxInterval (policyAfterRound r b) = MaxInterval b.
Proof.
  unfold policyAfterRound. destruct (connectErr r); [done |]. by destruct (firstSuccess r).
Qed.

Lemma ctxDone_fresh (n id : nat) (dead : gset nat) (c : context) :
  ctxBelow n c -> (n <= id)%nat -> ctxDone ({[id]} ∪ dead) c = ctxDone dead c.
Proof.
  intros Hc Hid. induction c as [| p IH id' | p IH d]; simpl in *; [done | | by apply IH].
  destruct Hc as [Hlt Hp]. rewrite (IH Hp). f_equal.
  apply bool_decide_ext. rewrite elem_of_union, elem_of_singleton.
  split; [intros [-> | H]; [lia | done] | by right].
Qed.

Lemma ctxBelow_mono (n m : nat) (c : context) :
  (n <= m)%nat -> ctxBelow n c -> ctxBelow m c.
Proof.
  intros Hle. induction c as [| p IH id | p IH d]; simpl; [done | | done].
  intros [Hlt Hp]. split; [lia | by apply IH].
Qed.

Section LoopFacts.

Variable g : goroutine.

(** One call of [ConnectAndReceive]: it returns, it does not sleep, and it
    touches the policy only through [onFirstSuccess]. *)
Lemma ConnectAndReceive_run (r : round) (bo : ExponentialBackOff) (w : world) :
  exists err w1 l,
    ConnectAndReceive (gCtx g) (gReq g) r bo w = Ok (policyAfterRound r bo, err) w1 /\
    log w1 = log w ++ EvConnect (subTopic (gReq g)) :: l /\
    sleeps l = [] /\
    contexts w1 = S (contexts w) /\
    dead w1 = {[contexts w]} ∪ (list_to_set (cancels r) ∪ dead w).
Proof.
  unfold ConnectAndReceive, policyAfterRound, newCancel, cancelAll, cancel, onFirstSuccess.
  run_M.
  destruct (connectErr r) as [e |]; simpl.
  - destruct (isCanceled e); simpl;
      (eexists _, _, _; split; [reflexivity |]; simpl;
       repeat rewrite <- app_assoc; simpl; repeat split; reflexivity).
  - destruct (receiveErr r); simpl;
      (eexists _, _, _; split; [reflexivity |]; simpl;
       repeat rewrite <- app_assoc; simpl; repeat split; reflexivity).
Qed.

(** One call of [ConnectAndReceiveWithSessions]: if it returns, the
    subscription context is done. *)
Lemma ConnectAndReceiveWithSessions_run (r : round) (bo : ExponentialBackOff) (w : world) :
  exists back w1 l,
    ConnectAndReceiveWithSessions (gCtx g) r bo w = Ok back w1 /\
    log w1 = log w ++ l /\ sleeps l = [] /\
    match back with
    | None => True
    | Some bo1 =>
        ctxDone (dead w1) (gCtx g) = true /\
        dead w1 = list_to_set (cancels r) ∪ dead w /\
        bo1 = (if firstSuccess r then expReset bo else bo)
    end.
Proof.
  unfold ConnectAndReceiveWithSessions, cancelAll, onFirstSuccess. run_M.
  destruct (ctxDone _ (gCtx g)) eqn:Hdone; simpl.
  - eexists _, _, [_]. repeat split; done.
  - eexists _, _, []. rewrite app_nil_r. repeat split; done.
Qed.

(** The loop, against any rounds, from any policy and any world. *)
Lemma reconnectLoop_run (script : list round) :
  forall (bo : ExponentialBackOff) (w : world),
  exists st w' l,
    reconnectLoop g bo script w = Ok st w' /\
    log w' = log w ++ l /\
    (st = Stopped -> ctxDone (dead w') (gCtx g) = true) /\
    (ctxBelow (contexts w) (gCtx g) -> ctxDone (dead w) (gCtx g) = false ->
     Forall (fun r => cancels r = []) script -> st <> Stopped) /\
    (st <> Stopped -> RequireSessions (gOpts g) = false ->
     length (sleeps l) = length script) /\
    (MaxElapsedTime bo = 0 -> wellFormed bo ->
     Forall (fun d => 0 <= d <= MaxInterval bo) (sleeps l)) /\
    (MaxElapsedTime bo = 0 -> wellFormed bo ->
     Forall (fun r => firstSuccess r = false) script ->
     nondecreasing (sleeps l) /\ Forall (fun d => currentInterval bo <= d) (sleeps l)).
Proof.
  induction script as [| r rest IH]; intros bo w.
  { exists (Running bo), w, []. simpl. rewrite app_nil_r. repeat split; done. }
  simpl. destruct (RequireSessions (gOpts g)) eqn:Hmode.
  - (* session mode *)
    destruct (ConnectAndReceiveWithSessions_run r bo w)
      as (back & w1 & l1 & Hrun & Hlog & Hsl & Hback).
    run_M. rewrite Hrun. destruct back as [bo1 |].
    + destruct Hback as (Hdone & Hdead & ->). unfold afterConnection. run_M.
      rewrite Hdone. simpl.
      eexists Stopped, _, (l1 ++ [_]). split; [reflexivity |]. simpl.
      rewrite Hlog, <- app_assoc. split; [done |].
      rewrite sleeps_app, Hsl. simpl. repeat split; try done.
      intros _ Hlive Hquiet. inversion Hquiet as [| r' rest' Hr Hrest]; subst.
      rewrite Hdead, Hr in Hdone. simpl in Hdone.
      rewrite (left_id_L ∅ (∪)) in Hdone. congruence.
    + exists (Running bo), w1, l1. rewrite Hsl. repeat split; done.
  - (* one receiver *)
    destruct (ConnectAndReceive_run r bo w)
      as (err & w1 & l1 & Hrun & Hlog & Hsl & Hctxs & Hdead).
    run_M. rewrite Hrun. unfold afterConnection. run_M.
    destruct (ctxDone (dead w1) (gCtx g)) eqn:Hdone; simpl.
    + eexists Stopped, _, (EvConnect _ :: l1 ++ [_]). split; [reflexivity |]. simpl.
      rewrite Hlog, <- app_assoc. split; [done |].
      unfold sleeps in *. simpl. rewrite omap_app, Hsl. simpl. repeat split; try done.
      intros Hbelow Hlive Hquiet. inversion Hquiet as [| r' rest' Hr Hrest]; subst.
      rewrite Hdead, Hr in Hdone. simpl in Hdone.
      rewrite (left_id_L ∅ (∪)) in Hdone.
      rewrite (ctxDone_fresh (contexts w)) in Hdone; [congruence | done | lia].
    + pose proof (expNextBackOff_fields (policyAfterRound r bo)) as (Hf1 & Hf2 & Hf3).
      pose proof (policyAfterRound_fields r bo) as (Hp1 & Hp2).
      destruct (expNextBackOff (policyAfterRound r bo)) as [d bo'] eqn:Hnext.
      simpl in Hf1, Hf2, Hf3.
      destruct (IH bo' (addLog (EvSleep d)
                  (addLog (EvWarnf "Subscription lost connection, attempting to reconnect"
                             None (Some d)) w1)))
        as (st & w' & l & Hloop & Hlog' & Hstop & Hgo & Hlen & Hbound & Hmono).
      rewrite Hloop.
      exists st, w', (EvConnect (subTopic (gReq g)) :: l1 ++
                      [EvWarnf "Subscription lost connection, attempting to reconnect"
                         None (Some d); EvSleep d] ++ l).
      split; [reflexivity |]. split.
      { rewrite Hlog'. simpl. rewrite Hlog. repeat rewrite <- app_assoc. done. }
      split; [done |].
      split.
      { intros Hbelow Hlive Hquiet. inversion Hquiet as [| r' rest' Hr Hrest]; subst.
        apply Hgo; simpl; [| done | done].
        rewrite Hctxs. eapply ctxBelow_mono; [| exact Hbelow]. lia. }
      assert (sleeps (EvConnect (subTopic (gReq g)) :: l1 ++
                [EvWarnf "Subscription lost connection, attempting to reconnect"
                   None (Some d); EvSleep d] ++ l) = d :: sleeps l) as ->.
      { unfold sleeps in *. simpl. rewrite omap_app, Hsl. done. }
      split. { intros Hst _. simpl. f_equal. by apply Hlen. }
      assert (MaxElapsedTime bo = 0 -> d = currentInterval (policyAfterRound r bo)) as Hd.
      { intros H0. pose proof (expNextBackOff_unbounded (policyAfterRound r bo)) as Hu.
        rewrite Hnext in Hu. simpl in Hu. apply Hu. congruence. }
      split.
      * intros H0 Hwf. pose proof (wellFormed_after r bo Hwf) as Hwf1.
        pose proof (wellFormed_next _ Hwf1) as Hwf2. rewrite Hnext in Hwf2. simpl in Hwf2.
        apply Forall_cons. split.
        { rewrite (Hd H0). destruct Hwf1 as (Hc & _). lia. }
        rewrite <- Hp2, <- Hf2. apply Hbound; [congruence | done].
      * intros H0 Hwf Hnone. inversion Hnone as [| r' rest' Hr Hrest]; subst.
        assert (policyAfterRound r bo = bo) as Hsame.
        { unfold policyAfterRound. rewrite Hr. by destruct (connectErr r). }
        rewrite Hsame in *.
        pose proof (wellFormed_next _ Hwf) as Hwf2. rewrite Hnext in Hwf2. simpl in Hwf2.
        destruct (Hmono ltac:(congruence) Hwf2 Hrest) as [Hnd Hge].
        pose proof (grow_ge bo Hwf) as [Hg _].
        assert (Forall (fun y => d <= y) (sleeps l)) as Hall.
        { eapply Forall_impl; [exact Hge |]. simpl. intros y Hy. rewrite (Hd H0). lia. }
        split; [by apply nondecreasing_cons |].
        apply Forall_cons. split; [rewrite (Hd H0); lia |].
        eapply Forall_impl; [exact Hall |]. simpl. intros y Hy. rewrite (Hd H0) in Hy. lia.
Qed.

End LoopFacts.

Section SubscribeClaims.

Variable NewExponentialBackOff : ExponentialBackOff.
Variable GetElemOrDefaultFromMap : gmap string string -> string -> Z -> Z.
Variable IsTruthy : string -> bool.

(** The policy built by [doSubscribe] has no max elapsed time, and its
    intervals are the configured ones. *)
Lemma reconnectPolicy_fields (md : Metadata) :
  MaxElapsedTime (reconnectPolicy NewExponentialBackOff md) = 0 /\
  InitialInterval (reconnectPolicy NewExponentialBackOff md) =
    durationMul (MinConnectionRecoveryInSec md) Second /\
  MaxInterval (reconnectPolicy NewExponentialBackOff md) =
    durationMul (MaxConnectionRecoveryInSec md) Second /\
  currentInterval (reconnectPolicy NewExponentialBackOff md) =
    currentInterval NewExponentialBackOff.
Proof. done. Qed.




End SubscribeClaims.

(** *** Concrete runs *)




(** ** The session slot pool *)

Section PoolFacts.

Import SessionPool.

Lemma filter_insert_length (P : phase -> Prop) `{!forall x, Decision (P x)}
    (l : list phase) (i : nat) (x y : phase) :
  l !! i = Some x ->
  (length (filter P (<[i := y]> l)) + (if decide (P x) then 1 else 0) =
   length (filter P l) + (if decide (P y) then 1 else 0))%nat.
Proof.
  revert i. induction l as [| z l IH]; intros i Hi; [done |].
  destruct i as [| i]; simpl in *.
  - injection Hi as ->. rewrite !filter_cons.
    repeat case_decide; simpl; lia.
  - specialize (IH i Hi). rewrite !filter_cons.
    destruct (decide (P z)); simpl; lia.
Qed.

Lemma filter_length_le (P Q : phase -> Prop)
    `{!forall x, Decision (P x)} `{!forall x, Decision (Q x)} (l : list phase) :
  (forall x, P x -> Q x) -> (length (filter P l) <= length (filter Q l))%nat.
Proof.
  intros HPQ. induction l as [| z l IH]; [done |].
  rewrite !filter_cons. destruct (decide (P z)) as [Hp | Hp].
  - rewrite decide_True by auto. simpl. lia.
  - destruct (decide (Q z)); simpl; lia.
Qed.

Lemma filter_length_pos (P : phase -> Prop) `{!forall x, Decision (P x)}
    (l : list phase) (i : nat) (x : phase) :
  l !! i = Some x -> P x -> (1 <= length (filter P l))%nat.
Proof.
  revert i. induction l as [| z l IH]; intros i Hi Hx; [done |].
  rewrite filter_cons. destruct i as [| i]; simpl in Hi.
  - injection Hi as ->. rewrite decide_True by done. simpl. lia.
  - specialize (IH i Hi Hx). destruct (decide (P z)); simpl; lia.
Qed.

Lemma newPool_invariant (n : Z) (s : pool) :
  newPool n = Some s -> poolInvariant s /\ capacity s = Z.to_nat n.
Proof.
  unfold newPool. destruct (n <? 0); [done |]. intros [= <-].
  unfold poolInvariant, slotsHeld. simpl. repeat split; [lia | done].
Qed.

Lemma step_invariant (a : action) (s s' : pool) :
  step a s = Some s' -> poolInvariant s ->
  poolInvariant s' /\ capacity s' = capacity s.
Proof.
  unfold poolInvariant, slotsHeld.
  destruct a as [| | | | | i | i | i | i]; simpl; intros Hstep [Hslots Hret].
  - injection Hstep as <-. simpl. done.
  - destruct (returned s), (holding s), (ctxCancelled s); simplify_eq/=; done.
  - destruct (returned s), (holding s), (tokens s) eqn:Ht; simplify_eq/=.
    repeat split; [lia | done].
  - destruct (returned s), (holding s) eqn:Hh, (ctxCancelled s); simplify_eq/=; done.
  - destruct (returned s), (holding s) eqn:Hh, (ctxCancelled s); simplify_eq/=.
    rewrite filter_app, length_app. simpl. repeat split; [lia | done].
  - unfold inPhase in Hstep. case_bool_decide as Hi; simplify_eq/=.
    pose proof (filter_insert_length (fun ph => ph <> Finished) _ i _ Receiving Hi) as Hc.
    rewrite !decide_True in Hc by done. repeat split; [lia | done].
  - unfold inPhase in Hstep. case_bool_decide as Hi; simplify_eq/=.
    pose proof (filter_insert_length (fun ph => ph <> Finished) _ i _ Releasing Hi) as Hc.
    rewrite !decide_True in Hc by done. repeat split; [lia | done].
  - unfold inPhase in Hstep. case_bool_decide as Hi; simplify_eq/=.
    pose proof (filter_insert_length (fun ph => ph <> Finished) _ i _ Releasing Hi) as Hc.
    rewrite !decide_True in Hc by done. repeat split; [lia | done].
  - unfold inPhase in Hstep. case_bool_decide as Hi; simplify_eq/=.
    destruct (tokens s <? capacity s)%nat; simplify_eq/=.
    pose proof (filter_insert_length (fun ph => ph <> Finished) _ i _ Finished Hi) as Hc.
    rewrite decide_True in Hc by done.
    rewrite decide_False in Hc by (intros Hne; by apply Hne).
    repeat split; [lia | done].
Qed.

Lemma run_invariant (acts : list action) :
  forall s s', run acts s = Some s' -> poolInvariant s ->
               poolInvariant s' /\ capacity s' = capacity s.
Proof.
  induction acts as [| a acts IH]; intros s s' Hrun Hinv; simpl in Hrun.
  - by injection Hrun as <-.
  - destruct (step a s) as [s1 |] eqn:Hstep; [| done].
    destruct (step_invariant a s s1 Hstep Hinv) as [Hinv1 Hcap1].
    destruct (IH s1 s' Hrun Hinv1) as [Hinv' Hcap']. split; [done | congruence].
Qed.

(** C2.  In every state the session pool can reach, from a channel made for
    [maxConcurrentSessions] slots and through any interleaving of the main
    loop and the session goroutines: the open session receivers are at most
    [maxConcurrentSessions]; every slot is either in the channel or held,
    and each open receiver belongs to a goroutine that holds one (it took
    it before connecting); a goroutine whose receiver is closed can always
    return its slot (the channel is never full then); and the main loop has
    returned only if the context is done. *)
Theorem session_slots_bound
    (maxConcurrentSessions : Z) (acts : list action) (s0 s : pool) :
  newPool maxConcurrentSessions = Some s0 ->
  run acts s0 = Some s ->
  (openSessions s <= Z.to_nat maxConcurrentSessions)%nat /\
  (tokens s + slotsHeld s = Z.to_nat maxConcurrentSessions)%nat /\
  (openSessions s <= slotsHeld s)%nat /\
  (forall i, sessions s !! i = Some Releasing -> is_Some (step (Release i) s)) /\
  (returned s = true -> ctxCancelled s = true).
Proof.
  intros Hnew Hrun.
  destruct (newPool_invariant _ _ Hnew) as [Hinv0 Hcap0].
  destruct (run_invariant acts s0 s Hrun Hinv0) as [[Hslots Hret] Hcap].
  assert (openSessions s <= slotsHeld s)%nat as Hopen.
  { unfold openSessions, slotsHeld.
    pose proof (filter_length_le (fun ph => ph = Receiving) (fun ph => ph <> Finished)
                  (sessions s)) as Hle.
    specialize (Hle ltac:(by intros x ->)). lia. }
  repeat split; try lia; [| done].
  intros i Hi. simpl. unfold inPhase. rewrite bool_decide_eq_true_2 by done. simpl.
  pose proof (filter_length_pos (fun ph => ph <> Finished) (sessions s) i Releasing Hi
                ltac:(done)) as Hpos.
  unfold slotsHeld in Hslots.
  destruct (Nat.ltb_spec (tokens s) (capacity s)); [by eexists | lia].
Qed.

(** Two slots, two sessions open, and the main loop cannot take a third. *)
Lemma session_slots_bound_witness :
  exists s,
    run [MainTake; MainSpawn; MainTake; MainSpawn; ConnectOk 0; ConnectOk 1]
      {| capacity := 2; tokens := 2; holding := false; returned := false;
         ctxCancelled := false; sessions := [] |} = Some s /\
    openSessions s = 2%nat /\ (openSessions s <= 2)%nat /\
    step MainTake s = None.
Proof.
  eexists. split; [vm_compute; reflexivity |].
  split; [reflexivity |]. split; [| reflexivity].
  exact (proj1 (session_slots_bound 2
                  [MainTake; MainSpawn; MainTake; MainSpawn; ConnectOk 0; ConnectOk 1]
                  _ _ eq_refl eq_refl)).
Defined.

End PoolFacts.

(** * Further properties *)

(** ** Publish: bounds and cancellation *)

Section PublishMore.

Variable IsNetworkError : error -> bool.
Variable IsRetriableAMQPError : error -> bool.
Variable NewASBMessageFromPubsubRequest : PublishRequest -> ASBMessage + error.
Variable NewExponentialBackOff : ExponentialBackOff.

Local Abbreviation publish :=
  (Publish IsNetworkError IsRetriableAMQPError NewASBMessageFromPubsubRequest
     NewExponentialBackOff).
Local Abbreviation attempt :=
  (publishAttempt IsNetworkError IsRetriableAMQPError).

Section Loop.

Variable md : Metadata.
Variable pctx : context.
Variable req : PublishRequest.
Variable msg : ASBMessage.
Variable script : nat -> replies.

Local Abbreviation op := (attempt md pctx req msg script).
Local Abbreviation onRetry := (publishOnRetry (msgIDOf msg)).
Local Abbreviation onRecovered := (publishOnRecovered (msgIDOf msg)).


(** The context is done when the wait starts: the loop ends with the
    cancellation error. *)
Lemma retryLoop_cancelled (fuel : nat) (failed : bool) (b b' : BackOff)
    (w w1 : world) (e : error) (d : Z) :
  op w = Ok (Some e) w1 ->
  isPermanent e = false ->
  NextBackOff b = (d, b') ->
  d <> Stop ->
  ctxDone (dead w1) (getContext b) = true ->
  retryLoop (S fuel) failed op b onRetry onRecovered w =
  Ok (Some Canceled)
     (addLog (EvSleep d) (addLog (EvWarnf (msgIDOf msg) (Some e) (Some d)) w1)).
Proof.
  intros H Hp Hn Hd Hc. simpl. run_M. rewrite H.
  destruct e; try discriminate Hp; rewrite Hn;
    (destruct (Z.eqb_spec d Stop) as [-> | _]; [done |]);
    unfold publishOnRetry; run_M; by rewrite Hc.
Qed.



(** The attempt whose topic provisioning fails stops there. *)
Lemma publishAttempt_provisioning (w : world) (e : error) :
  onEnsureTopic (script (attempts w)) (ctxDone (dead w) pctx) = Some e ->
  op w = Ok (Some e)
          (addLog (EvEnsureTopic pctx (pubTopic req)) (setAttempts (S (attempts w)) w)).
Proof.
  intros He. unfold publishAttempt, nextReplies, EnsureTopic. run_M. by rewrite He.
Qed.


End Loop.




(** X4.  A negative [PublishMaxRetries] does not switch retries off: the
    conversion to [uint64] turns it into a cap of
    [2^64 + PublishMaxRetries], so after any number [N] of attempts failing
    in [SendMessage] with retriable network errors (up to [2^63] of them)
    [Publish] still runs attempt [N + 1], and returns nil when it goes
    through. *)
Theorem Publish_negative_max_retries
    (N fuel : nat) (a : azureServiceBus) (req : PublishRequest)
    (script : nat -> replies) (msg : ASBMessage) (md : Metadata) (pctx : context)
    (w : world) :
  NewASBMessageFromPubsubRequest req = inl msg ->
  metadata a = Some md ->
  publishCtx a = Some pctx ->
  - 2 ^ 63 <= PublishMaxRetries md < 0 ->
  Z.of_nat N <= 2 ^ 63 ->
  ctxDone (dead w) pctx = false ->
  grants N (Exponential (expReset (publishEbo NewExponentialBackOff md))) = true ->
  (forall k, (k < N)%nat -> networkFailure IsNetworkError (script (attempts w + k)%nat)) ->
  goesThrough (script (attempts w + N)%nat) ->
  (N < fuel)%nat ->
  uint64 (PublishMaxRetries md) = 2 ^ 64 + PublishMaxRetries md /\
  exists w',
    publish fuel a req script w = Ok None w' /\
    attempts w' = (attempts w + N + 1)%nat.
Proof.
  intros Hmsg Hmd Hctx Hneg HN Hlive Hgr Hfail Hok Hfuel.
  assert (uint64 (PublishMaxRetries md) = 2 ^ 64 + PublishMaxRetries md) as Hcap.
  { unfold uint64. symmetry. apply (Z.mod_unique_pos _ _ (-1)); lia. }
  split; [exact Hcap |].
  rewrite (Publish_unfold IsNetworkError IsRetriableAMQPError NewASBMessageFromPubsubRequest
             NewExponentialBackOff fuel a req script msg md pctx w Hmsg Hmd Hctx).
  destruct (retryLoop_recovers IsNetworkError IsRetriableAMQPError md pctx req msg script
              N fuel false
              (WithContext
                 (WithMaxRetries (Exponential (expReset (publishEbo NewExponentialBackOff md)))
                    (uint64 (PublishMaxRetries md)) 0) pctx) w)
    as (w' & l & Hloop & Hlog & Hatt & _); try done.
  { rewrite grants_WithContext, grants_WithMaxRetries by lia. done. }
  rewrite Hloop. destruct (false || (0 <? N)%nat); eexists; (split; [reflexivity | exact Hatt]).
Qed.

End PublishMore.

(** ** Init, Close and what follows them *)

(** What [Close] leaves behind, field by field. *)
Lemma Close_run (a : azureServiceBus) (id : nat) (w : world) :
  publishCancel a = Some id ->
  client a = true ->
  exists w',
    Close a w = Ok None w' /\
    dead w' = {[id]} ∪ dead w /\ senders w' = ∅ /\
    log w' = log w ++ [EvCancel id; EvCloseAllSenders] /\
    contexts w' = contexts w /\ attempts w' = attempts w /\
    created w' = created w /\ spawned w' = spawned w.
Proof.
  intros Hcancel Hclient. unfold Close, requireClient, cancel, CloseAllSenders.
  rewrite Hcancel, Hclient. run_M.
  eexists. split; [reflexivity |]. simpl. rewrite <- app_assoc. repeat split; done.
Qed.


Lemma ctxBelow_not_mentions (n id : nat) (c : context) :
  ctxBelow n c -> (n <= id)%nat -> ~ ctxMentions id c.
Proof.
  intros Hc Hid. induction c as [| p IH id' | p IH d]; simpl in *; [tauto | | by apply IH].
  destruct Hc as [Hlt Hp]. intros [-> | Hm]; [lia | by apply IH].
Qed.

(** X5.  [Close] can be called again: the second call also returns nil, and
    changes nothing but the log (the publish context stays done, the sender
    cache stays empty). *)
Theorem Close_twice (a : azureServiceBus) (w : world) :
  initialised a ->
  exists w1 w2,
    Close a w = Ok None w1 /\
    Close a w1 = Ok None w2 /\
    dead w2 = dead w1 /\ senders w2 = senders w1 /\ senders w2 = ∅ /\
    contexts w2 = contexts w1 /\ created w2 = created w1 /\
    attempts w2 = attempts w1 /\ spawned w2 = spawned w1.
Proof.
  intros (md & id & Hmd & Hclient & Hctx & Hcancel).
  destruct (Close_run a id w Hcancel Hclient)
    as (w1 & Hrun1 & Hdead1 & Hs1 & _ & Hc1 & Ha1 & Hcr1 & Hsp1).
  destruct (Close_run a id w1 Hcancel Hclient)
    as (w2 & Hrun2 & Hdead2 & Hs2 & _ & Hc2 & Ha2 & Hcr2 & Hsp2).
  exists w1, w2. repeat split; try done; try congruence.
  rewrite Hdead2, Hdead1. apply set_eq. intros x. rewrite !elem_of_union. tauto.
Qed.


Section AfterClose.

Variable IsNetworkError : error -> bool.
Variable IsRetriableAMQPError : error -> bool.
Variable NewASBMessageFromPubsubRequest : PublishRequest -> ASBMessage + error.
Variable NewExponentialBackOff : ExponentialBackOff.
Variable GetElemOrDefaultFromMap : gmap string string -> string -> Z -> Z.
Variable MaxBulkPubBytesKey : string.

(** X7.  After [Close], a [Publish] whose topic provisioning is refused (as a
    broker does under a context that is done) is not retried, although
    retries are left: it makes one attempt and returns the cancellation
    error. *)
Theorem Publish_after_Close_is_cancelled
    (fuel : nat) (a : azureServiceBus) (req : PublishRequest)
    (script : nat -> replies) (msg : ASBMessage) (md : Metadata) (e : error)
    (w : world) :
  initialised a ->
  metadata a = Some md ->
  NewASBMessageFromPubsubRequest req = inl msg ->
  1 <= uint64 (PublishMaxRetries md) ->
  grants 1 (Exponential (expReset (publishEbo NewExponentialBackOff md))) = true ->
  onEnsureTopic (script (attempts w)) true = Some e ->
  isPermanent e = false ->
  exists w1 w2 l,
    Close a w = Ok None w1 /\
    Publish IsNetworkError IsRetriableAMQPError NewASBMessageFromPubsubRequest
      NewExponentialBackOff (S fuel) a req script w1 = Ok (Some Canceled) w2 /\
    attempts w2 = S (attempts w) /\
    log w2 = log w1 ++ l /\ countEv isEnsureTopic l = 1%nat.
Proof.
  intros (md' & id & Hmd' & Hclient & Hctx & Hcancel) Hmd Hmsg Hcap Hgr He Hp.
  destruct (Close_run a id w Hcancel Hclient)
    as (w1 & Hrun & Hdead & _ & _ & _ & Hatt & _).
  assert (ctxDone (dead w1) (WithCancel Background id) = true) as Hdone.
  { simpl. rewrite Hdead, bool_decide_eq_true_2; [done |].
    apply elem_of_union_l. by apply elem_of_singleton. }
  exists w1.
  rewrite (Publish_unfold IsNetworkError IsRetriableAMQPError NewASBMessageFromPubsubRequest
             NewExponentialBackOff (S fuel) a req script msg md _ w1 Hmsg Hmd Hctx).
  pose proof (publishAttempt_provisioning IsNetworkError IsRetriableAMQPError md
                (WithCancel Background id) req msg script w1 e) as Hattempt.
  rewrite Hdone, Hatt in Hattempt. specialize (Hattempt He).
  simpl in Hgr.
  destruct (expNextBackOff (expReset (publishEbo NewExponentialBackOff md)))
    as [next ebo'] eqn:Hnext.
  rewrite andb_true_r in Hgr.
  assert (next <> Stop) as Hnostop by (intros ->; by rewrite Z.eqb_refl in Hgr).
  erewrite retryLoop_cancelled; [| exact Hattempt | exact Hp | | exact Hnostop | exact Hdone].
  2: { simpl. destruct (Z.leb_spec (uint64 (PublishMaxRetries md)) 0); [lia |].
       rewrite Hnext. reflexivity. }
  eexists _, [_; _; _]. split; [exact Hrun |]. split; [reflexivity |].
  simpl. rewrite <- !app_assoc. repeat split; done.
Qed.

(** X8.  After [Close], a bulk publish with entries still asks for the topic
    under the publish context, now done: when the broker refuses that, the
    call fails there, with every entry marked failed, whatever the state of
    the caller's context; nothing else is called. *)
Theorem BulkPublish_after_Close_fails_provisioning
    (a : azureServiceBus) (ctx pctx : context) (req : BulkPublishRequest)
    (r : replies) (e : error) (w : world) :
  initialised a ->
  publishCtx a = Some pctx ->
  bulkEntries req <> [] ->
  onEnsureTopic r true = Some e ->
  exists w1 w2,
    Close a w = Ok None w1 /\
    BulkPublish GetElemOrDefaultFromMap MaxBulkPubBytesKey a ctx req r w1 =
      Ok (NewBulkPublishResponse (bulkEntries req) PublishFailed (Some e), Some e) w2 /\
    log w2 = log w1 ++ [EvEnsureTopic pctx (bulkTopic req)].
Proof.
  intros (md & id & Hmd & Hclient & Hctx & Hcancel) Hpctx Hne He.
  destruct (Close_run a id w Hcancel Hclient) as (w1 & Hrun & Hdead & _).
  rewrite Hctx in Hpctx. injection Hpctx as <-.
  exists w1. unfold BulkPublish, requireClient, EnsureTopic.
  destruct (bulkEntries req) as [| entry entries] eqn:Hentries; [done |].
  rewrite Hclient, Hctx. run_M.
  rewrite Hdead, bool_decide_eq_true_2
    by (apply elem_of_union_l; by apply elem_of_singleton).
  simpl. rewrite He.
  eexists. split; [exact Hrun |]. split; reflexivity.
Qed.


End AfterClose.

Section InitFacts.

Variable ParseMetadata : gmap string string -> Metadata + error.
Variable NewClient : Metadata -> gmap string string -> option error.

(** X10.  When [Init] fails, on a component fresh from the constructor, it
    has not touched the world (no context was created, nothing was called)
    and the component stays without a cancel function: a later [Close]
    panics. *)
Theorem Init_failure_leaves_component_unusable
    (properties : gmap string string) (a' : azureServiceBus) (err : error)
    (w w' w'' : world) :
  Init ParseMetadata NewClient properties NewAzureServiceBusTopics w
    = Ok (a', Some err) w' ->
  w' = w /\
  publishCtx a' = None /\
  (ParseMetadata properties = inr err \/
   exists md, ParseMetadata properties = inl md /\ NewClient md properties = Some err /\
              metadata a' = Some md) /\
  exists m, Close a' w'' = Panic m.
Proof.
  unfold Init, newCancel, Close. run_M.
  destruct (ParseMetadata properties) as [md | e] eqn:Hparse.
  - destruct (NewClient md properties) as [e |] eqn:Hclient; [| done].
    intros [= <- <- <-]. simpl. repeat split; eauto.
  - intros [= <- <- <-]. simpl. repeat split; eauto.
Qed.

(** X11.  When [Init] succeeds, in a consistent world: the component is
    initialised; its publish context is new and live; the world stays
    consistent; no context that existed before derives from the new cancel
    function (so closing this component cancels none of them); and nothing
    was called on the broker. *)
Theorem Init_success_gives_live_fresh_context
    (properties : gmap string string) (a a' : azureServiceBus) (w w' : world) :
  consistent w ->
  Init ParseMetadata NewClient properties a w = Ok (a', None) w' ->
  initialised a' /\
  consistent w' /\
  publishCancel a' = Some (contexts w) /\
  (forall pctx, publishCtx a' = Some pctx -> ctxDone (dead w') pctx = false) /\
  (forall c, ctxBelow (contexts w) c -> ~ ctxMentions (contexts w) c) /\
  log w' = log w /\ senders w' = senders w.
Proof.
  intros Hcons. unfold Init, newCancel. run_M.
  destruct (ParseMetadata properties) as [md | e]; [| done].
  destruct (NewClient md properties); [done |]. simpl.
  intros [= <- <-]. simpl. split; [by exists md, (contexts w) |].
  split. { intros id Hid. simpl in *. specialize (Hcons id Hid). lia. }
  split; [done |]. split.
  { intros pctx [= <-]. simpl. rewrite orb_false_r.
    apply bool_decide_eq_false_2. intros Hin. specialize (Hcons _ Hin). lia. }
  split; [| done].
  intros c Hc. by apply (ctxBelow_not_mentions (contexts w)).
Qed.

End InitFacts.

(** ** BulkPublish: one call, all or nothing *)

Section BulkMore.

Variable GetElemOrDefaultFromMap : gmap string string -> string -> Z -> Z.
Variable MaxBulkPubBytesKey : string.

Local Abbreviation bulkPublish := (BulkPublish GetElemOrDefaultFromMap MaxBulkPubBytesKey).

(** Every way through a bulk publish with entries. *)
Lemma BulkPublish_run
    (a : azureServiceBus) (ctx pctx : context) (req : BulkPublishRequest)
    (r : replies) (w : world) :
  bulkEntries req <> [] ->
  client a = true ->
  publishCtx a = Some pctx ->
  exists err w' l,
    bulkPublish a ctx req r w =
      Ok (NewBulkPublishResponse (bulkEntries req)
            (match err with None => PublishSucceeded | Some _ => PublishFailed end) err,
          err) w' /\
    log w' = log w ++ l /\
    dead w' = dead w /\ attempts w' = attempts w /\ contexts w' = contexts w /\
    spawned w' = spawned w /\
    (forall t s, senders w !! t = Some s -> senders w' !! t = Some s) /\
    countEv isSleep l = O /\ countEv isCloseSender l = O /\ countEv isWarnf l = O /\
    countEv isEnsureTopic l = 1%nat /\
    (countEv isGetSender l <= 1)%nat /\ (countEv isNewMessageBatch l <= 1)%nat /\
    (countEv isAddMessages l <= 1)%nat /\ (countEv isSendMessageBatch l <= 1)%nat /\
    (err = None <->
     bulkGoesThrough r (bool_decide (is_Some (senders w !! bulkTopic req)))
       (ctxDone (dead w) pctx) (ctxDone (dead w) ctx)) /\
    (countEv isSendMessageBatch l = 1%nat <->
     onEnsureTopic r (ctxDone (dead w) pctx) = None /\
     (senders w !! bulkTopic req = None -> onNewSender r (ctxDone (dead w) ctx) = None) /\
     onNewMessageBatch r (ctxDone (dead w) ctx) = None /\
     onAddMessages r = None).
Proof.
  intros Hne Hclient Hctx. unfold BulkPublish, requireClient, bulkGoesThrough.
  destruct (bulkEntries req) as [| entry entries] eqn:Hentries; [done |].
  rewrite Hclient, Hctx.
  unfold EnsureTopic, GetSender, NewMessageBatch, SendMessageBatch,
    UpdateASBBatchMessageWithBulkPublishRequest.
  run_M.
  assert (forall t s, senders w !! t = Some s ->
            <[bulkTopic req := created w]> (senders w) !! t = Some s \/
            senders w !! bulkTopic req <> None) as Hkeep.
  { intros t s Ht. destruct (decide (bulkTopic req = t)) as [<- | Hneq].
    - right. congruence.
    - left. by rewrite lookup_insert_ne. }
  destruct (onEnsureTopic r _) as [e |] eqn:He1.
  { eexists (Some e), _, [_]. split; [reflexivity |]. simpl.
    repeat split; try done; unfold countEv; simpl; try lia;
      intros; intuition congruence. }
  simpl.
  destruct (senders w !! bulkTopic req) as [s0 |] eqn:Hc; simpl; rewrite ?Hc; simpl;
    [| destruct (onNewSender r _) eqn:He2; simpl ];
    try (destruct (onNewMessageBatch r _) eqn:He3; simpl;
         [| destruct (onAddMessages r) eqn:He4; simpl;
            [| destruct (onSendMessageBatch r _) eqn:He5; simpl ]]);
    (lazymatch goal with
     | |- context [Ok (_, ?e) ?W = _] => exists e, W
     end;
     eexists; split; [reflexivity |]; simpl;
     repeat rewrite <- app_assoc; simpl; split; [reflexivity |];
     rewrite ?bool_decide_eq_true_2 by eauto;
     rewrite ?bool_decide_eq_false_2 by (intros [? ?]; discriminate);
     repeat split; try done; unfold countEv; simpl; try lia;
     try (intros t s Ht; destruct (Hkeep t s Ht); [assumption | congruence]);
     try (intros; intuition congruence)).
Qed.

(** X12.  A bulk publish is all or nothing: the response has one status per
    entry of the request, in the same order and with the same entry ids;
    when the call returns nil every entry is marked succeeded, with no
    error; when it returns an error every entry is marked failed and
    carries that same error. *)
Theorem BulkPublish_all_or_nothing
    (a : azureServiceBus) (ctx pctx : context) (req : BulkPublishRequest)
    (r : replies) (w : world) :
  client a = true ->
  publishCtx a = Some pctx ->
  exists resp err w',
    bulkPublish a ctx req r w = Ok (resp, err) w' /\
    map respEntryId (Statuses resp) = map EntryId (bulkEntries req) /\
    Forall (fun st => respError st = err /\
                      respStatus st = match err with
                                      | None => PublishSucceeded
                                      | Some _ => PublishFailed
                                      end) (Statuses resp).
Proof.
  intros Hclient Hctx.
  assert (forall status err,
            map respEntryId (Statuses (NewBulkPublishResponse (bulkEntries req) status err))
              = map EntryId (bulkEntries req) /\
            Forall (fun st => respError st = err /\ respStatus st = status)
              (Statuses (NewBulkPublishResponse (bulkEntries req) status err))) as Hresp.
  { intros status err. unfold NewBulkPublishResponse. simpl.
    induction (bulkEntries req) as [| entry entries [IH1 IH2]]; simpl; [done |].
    split; [by rewrite IH1 | by constructor]. }
  destruct (bulkEntries req) as [| entry entries] eqn:Hentries.
  - exists (NewBulkPublishResponse [] PublishSucceeded None), None,
      (addLog (EvWarnf "Empty bulk publish request, skipping" None None) w).
    unfold BulkPublish. rewrite Hentries. simpl. repeat split; done.
  - destruct (BulkPublish_run a ctx pctx req r w) as (err & w' & l & Hrun & _);
      [by rewrite Hentries | done | done |].
    rewrite Hentries in Hrun. eexists _, err, w'. split; [exact Hrun |].
    apply Hresp.
Qed.

(** X13.  A bulk publish with entries is a single pass: it asks for the topic
    once and makes each later call at most once; it never waits, never
    retries and never closes a sender, so every sender cached before is
    still cached after, even when the batch could not be sent; it calls no
    cancel function and starts no goroutine. *)
Theorem BulkPublish_single_pass
    (a : azureServiceBus) (ctx pctx : context) (req : BulkPublishRequest)
    (r : replies) (w : world) :
  bulkEntries req <> [] ->
  client a = true ->
  publishCtx a = Some pctx ->
  exists resp err w' l,
    bulkPublish a ctx req r w = Ok (resp, err) w' /\
    log w' = log w ++ l /\
    countEv isEnsureTopic l = 1%nat /\
    (countEv isGetSender l <= 1)%nat /\ (countEv isNewMessageBatch l <= 1)%nat /\
    (countEv isAddMessages l <= 1)%nat /\ (countEv isSendMessageBatch l <= 1)%nat /\
    countEv isSleep l = O /\ countEv isCloseSender l = O /\
    (forall t s, senders w !! t = Some s -> senders w' !! t = Some s) /\
    dead w' = dead w /\ spawned w' = spawned w.
Proof.
  intros Hne Hclient Hctx.
  destruct (BulkPublish_run a ctx pctx req r w Hne Hclient Hctx)
    as (err & w' & l & Hrun & Hlog & Hdead & _ & _ & Hsp & Hkeep & Hsl & Hcl & _ &
        H1 & H2 & H3 & H4 & H5 & _).
  eexists _, err, w', l. split; [exact Hrun |]. repeat split; assumption.
Qed.

(** X14.  A bulk publish with entries returns nil exactly when the five
    steps all go through (topic, sender, new batch, filling the batch,
    sending it); and the batch is sent exactly when the four steps before
    the send go through: a failure of any of them ends the call before the
    send. *)
Theorem BulkPublish_succeeds_iff_every_step_does
    (a : azureServiceBus) (ctx pctx : context) (req : BulkPublishRequest)
    (r : replies) (w : world) :
  bulkEntries req <> [] ->
  client a = true ->
  publishCtx a = Some pctx ->
  exists resp err w' l,
    bulkPublish a ctx req r w = Ok (resp, err) w' /\
    log w' = log w ++ l /\
    (err = None <->
     bulkGoesThrough r (bool_decide (is_Some (senders w !! bulkTopic req)))
       (ctxDone (dead w) pctx) (ctxDone (dead w) ctx)) /\
    (countEv isSendMessageBatch l = 1%nat <->
     onEnsureTopic r (ctxDone (dead w) pctx) = None /\
     (senders w !! bulkTopic req = None -> onNewSender r (ctxDone (dead w) ctx) = None) /\
     onNewMessageBatch r (ctxDone (dead w) ctx) = None /\
     onAddMessages r = None).
Proof.
  intros Hne Hclient Hctx.
  destruct (BulkPublish_run a ctx pctx req r w Hne Hclient Hctx)
    as (err & w' & l & Hrun & Hlog & _ & _ & _ & _ & _ & _ & _ & _ & _ & _ & _ & _ & _ &
        Hiff & Hsend).
  eexists _, err, w', l. split; [exact Hrun |]. split; [exact Hlog |].
  split; [exact Hiff | exact Hsend].
Qed.

End BulkMore.

(** ** Receiving: what one connection and the loop around it do *)

Section ReceiveMore.

Variable g : goroutine.

(** X15.  One call of [ConnectAndReceive], on every path: the result is the
    error of the receive function, and nil when connecting failed (that
    error is only logged); the receive function runs, and the receiver is
    closed, exactly when the connection was made, once each; the
    subscription is closed only after a receive that returned nil; and the
    receiver context, created by the call, is cancelled by it as its last
    action, exactly once. *)
Theorem ConnectAndReceive_releases_what_it_opens
    (r : round) (bo : ExponentialBackOff) (w : world) :
  exists bo' err w1 l,
    ConnectAndReceive (gCtx g) (gReq g) r bo w = Ok (bo', err) w1 /\
    log w1 = log w ++ l /\
    err = match connectErr r with Some _ => None | None => receiveErr r end /\
    countEv isConnect l = 1%nat /\
    countEv isReceive l = match connectErr r with Some _ => O | None => 1%nat end /\
    countEv isCloseReceiver l = match connectErr r with Some _ => O | None => 1%nat end /\
    countEv isCloseSubscription l =
      match connectErr r, receiveErr r with
      | None, None => 1%nat
      | _, _ => O
      end /\
    countEv isCancel l = 1%nat /\
    last l = Some (EvCancel (contexts w)) /\
    contexts w1 = S (contexts w) /\
    ctxDone (dead w1) (WithCancel (gCtx g) (contexts w)) = true /\
    countEv isSleep l = O.
Proof.
  unfold ConnectAndReceive, newCancel, cancelAll, cancel, onFirstSuccess. run_M.
  assert (forall D : gset nat, bool_decide (contexts w ∈ {[contexts w]} ∪ D) = true) as Hin.
  { intros D. apply bool_decide_eq_true_2, elem_of_union_l. by apply elem_of_singleton. }
  destruct (connectErr r) as [e |]; simpl.
  - destruct (isCanceled e); simpl;
      (eexists _, _, _, _; split; [reflexivity |]; simpl;
       repeat rewrite <- app_assoc; simpl; split; [reflexivity |];
       rewrite Hin; repeat split; reflexivity).
  - destruct (receiveErr r); simpl;
      (eexists _, _, _, _; split; [reflexivity |]; simpl;
       repeat rewrite <- app_assoc; simpl; split; [reflexivity |];
       rewrite Hin; repeat split; reflexivity).
Qed.


(** X17.  After a connection on which a first message was received, the
    first wait of the loop is the initial interval again, however far the
    current interval had grown: without sessions, with no max elapsed time,
    and while the subscription context stays live. *)
Theorem reconnect_wait_restarts_after_first_success
    (bo : ExponentialBackOff) (r : round) (rest : list round) (w : world) :
  RequireSessions (gOpts g) = false ->
  MaxElapsedTime bo = 0 ->
  connectErr r = None ->
  firstSuccess r = true ->
  cancels r = [] ->
  ctxBelow (contexts w) (gCtx g) ->
  ctxDone (dead w) (gCtx g) = false ->
  exists st w' l,
    reconnectLoop g bo (r :: rest) w = Ok st w' /\
    log w' = log w ++ l /\
    head (sleeps l) = Some (InitialInterval bo).
Proof.
  intros Hmode H0 Hconn Hfirst Hquiet Hbelow Hlive. simpl. rewrite Hmode.
  destruct (ConnectAndReceive_run g r bo w)
    as (err & w1 & l1 & Hrun & Hlog & Hsl & Hctxs & Hdead).
  run_M. rewrite Hrun. unfold afterConnection. run_M.
  assert (ctxDone (dead w1) (gCtx g) = false) as Hlive1.
  { rewrite Hdead, Hquiet. simpl. rewrite (left_id_L ∅ (∪)).
    rewrite (ctxDone_fresh (contexts w)); [done | done | lia]. }
  rewrite Hlive1.
  assert (policyAfterRound r bo = expReset bo) as Hpol.
  { unfold policyAfterRound. by rewrite Hconn, Hfirst. }
  rewrite Hpol.
  pose proof (expNextBackOff_unbounded (expReset bo) H0) as Hd.
  destruct (expNextBackOff (expReset bo)) as [d bo'] eqn:Hnext. simpl in Hd. subst d.
  match goal with |- context [reconnectLoop g bo' rest ?w2] =>
    destruct (reconnectLoop_run g rest bo' w2) as (st & w' & l & Hloop & Hlog' & _)
  end.
  rewrite Hloop.
  exists st, w', (EvConnect (subTopic (gReq g)) :: l1 ++
                  [EvWarnf "Subscription lost connection, attempting to reconnect"
                     None (Some (InitialInterval bo)); EvSleep (InitialInterval bo)] ++ l).
  split; [reflexivity |]. split.
  { rewrite Hlog'. simpl. rewrite Hlog, <- !app_assoc. reflexivity. }
  unfold sleeps in *. simpl. rewrite omap_app, Hsl. reflexivity.
Qed.

End ReceiveMore.

(** X18.  Until a first message is received, the waits of the reconnect loop
    of [doSubscribe] start from the current interval of the new policy, as
    [backoff.NewExponentialBackOff()] made it: [doSubscribe] writes
    [MinConnectionRecoveryInSec] into the policy but does not reset it, so
    the first wait after a lost connection is the same whatever that
    setting is. *)
Theorem reconnect_first_wait_ignores_min_recovery
    (NewExponentialBackOff : ExponentialBackOff) (md : Metadata) (g : goroutine)
    (r : round) (rest : list round) (w : world) :
  gPolicy g = reconnectPolicy NewExponentialBackOff md ->
  RequireSessions (gOpts g) = false ->
  firstSuccess r = false ->
  cancels r = [] ->
  ctxBelow (contexts w) (gCtx g) ->
  ctxDone (dead w) (gCtx g) = false ->
  exists st w' l,
    runGoroutine g (r :: rest) w = Ok st w' /\
    log w' = log w ++ l /\
    head (sleeps l) = Some (currentInterval NewExponentialBackOff).
Proof.
  intros Hpol Hmode Hfirst Hquiet Hbelow Hlive. unfold runGoroutine. simpl. rewrite Hmode.
  destruct (ConnectAndReceive_run g r (gPolicy g) w)
    as (err & w1 & l1 & Hrun & Hlog & Hsl & Hctxs & Hdead).
  run_M. rewrite Hrun. unfold afterConnection. run_M.
  assert (ctxDone (dead w1) (gCtx g) = false) as Hlive1.
  { rewrite Hdead, Hquiet. simpl. rewrite (left_id_L ∅ (∪)).
    rewrite (ctxDone_fresh (contexts w)); [done | done | lia]. }
  rewrite Hlive1.
  assert (policyAfterRound r (gPolicy g) = gPolicy g) as Hsame.
  { unfold policyAfterRound. rewrite Hfirst. by destruct (connectErr r). }
  rewrite Hsame.
  pose proof (expNextBackOff_unbounded (gPolicy g)) as Hd.
  rewrite Hpol in Hd at 1. specialize (Hd eq_refl).
  destruct (expNextBackOff (gPolicy g)) as [d bo'] eqn:Hnext. simpl in Hd.
  rewrite Hpol in Hd. simpl in Hd. subst d.
  match goal with |- context [reconnectLoop g bo' rest ?w2] =>
    destruct (reconnectLoop_run g rest bo' w2) as (st & w' & l & Hloop & Hlog' & _)
  end.
  rewrite Hloop.
  exists st, w', (EvConnect (subTopic (gReq g)) :: l1 ++
                  [EvWarnf "Subscription lost connection, attempting to reconnect"
                     None (Some (currentInterval NewExponentialBackOff));
                   EvSleep (currentInterval NewExponentialBackOff)] ++ l).
  split; [reflexivity |]. split.
  { rewrite Hlog'. simpl. rewrite Hlog, <- !app_assoc. reflexivity. }
  unfold sleeps in *. simpl. rewrite omap_app, Hsl. reflexivity.
Qed.


(** ** The session slot pool: edges and order *)

Section PoolMore.

Import SessionPool.

Lemma step_sessions (a : action) (s s' : pool) :
  step a s = Some s' ->
  (ctxCancelled s = true -> ctxCancelled s' = true) /\
  (length (sessions s) <= length (sessions s'))%nat /\
  (ctxCancelled s = true -> length (sessions s') = length (sessions s)) /\
  (forall i ph, sessions s !! i = Some ph ->
                exists ph', sessions s' !! i = Some ph' /\ (rank ph <= rank ph')%nat).
Proof.
  assert (forall (l : list phase) j ph0 ph1,
            l !! j = Some ph0 -> (rank ph0 <= rank ph1)%nat ->
            forall i ph, l !! i = Some ph ->
                         exists ph', <[j := ph1]> l !! i = Some ph' /\
                                     (rank ph <= rank ph')%nat) as Hins.
  { intros l j ph0 ph1 Hj Hle i ph Hi. destruct (decide (j = i)) as [-> | Hne].
    - exists ph1. rewrite list_lookup_insert_eq by (by eapply lookup_lt_Some).
      split; [done |]. congruence.
    - exists ph. by rewrite list_lookup_insert_ne. }
  destruct a as [| | | | | i | i | i | i]; simpl; intros Hstep.
  - injection Hstep as <-. simpl. repeat split; eauto.
  - destruct (returned s), (holding s), (ctxCancelled s); simplify_eq/=;
      repeat split; eauto.
  - destruct (returned s), (holding s), (tokens s); simplify_eq/=; repeat split; eauto.
  - destruct (returned s), (holding s), (ctxCancelled s); simplify_eq/=;
      repeat split; eauto.
  - destruct (returned s), (holding s), (ctxCancelled s) eqn:Hc; simplify_eq/=.
    rewrite length_app. simpl. repeat split; try done; try lia.
    intros i ph Hi. exists ph. split; [| done]. by apply lookup_app_l_Some.
  - unfold inPhase in Hstep. case_bool_decide as Hi; simplify_eq/=.
    rewrite length_insert. repeat split; try done.
    apply (Hins _ _ Connecting); [done | simpl; lia].
  - unfold inPhase in Hstep. case_bool_decide as Hi; simplify_eq/=.
    rewrite length_insert. repeat split; try done.
    apply (Hins _ _ Connecting); [done | simpl; lia].
  - unfold inPhase in Hstep. case_bool_decide as Hi; simplify_eq/=.
    rewrite length_insert. repeat split; try done.
    apply (Hins _ _ Receiving); [done | simpl; lia].
  - unfold inPhase in Hstep. case_bool_decide as Hi; simplify_eq/=.
    destruct (tokens s <? capacity s)%nat; simplify_eq/=.
    rewrite length_insert. repeat split; try done.
    apply (Hins _ _ Releasing); [done | simpl; lia].
Qed.


(** X21.  A session goroutine only moves forward (connecting, receiving,
    releasing, finished), along any run: in particular a closed receiver is
    never reopened, and a goroutine that has returned its slot stays
    finished. *)
Theorem session_phases_only_advance (acts : list action) :
  forall (s s' : pool) (i : nat) (ph : phase),
    run acts s = Some s' ->
    sessions s !! i = Some ph ->
    exists ph', sessions s' !! i = Some ph' /\ (rank ph <= rank ph')%nat /\
                (ph = Finished -> ph' = Finished) /\
                (ph = Releasing -> ph' <> Receiving).
Proof.
  assert (forall (s s' : pool) (i : nat) (ph : phase),
            run acts s = Some s' -> sessions s !! i = Some ph ->
            exists ph', sessions s' !! i = Some ph' /\ (rank ph <= rank ph')%nat) as Hrank.
  { induction acts as [| a acts IH]; intros s s' i ph Hrun Hi; simpl in Hrun.
    - injection Hrun as <-. by exists ph.
    - destruct (step a s) as [s1 |] eqn:Hstep; [| done].
      destruct (step_sessions a s s1 Hstep) as (_ & _ & _ & Hfwd).
      destruct (Hfwd i ph Hi) as (ph1 & Hi1 & Hle1).
      destruct (IH s1 s' i ph1 Hrun Hi1) as (ph' & Hi' & Hle').
      exists ph'. split; [done | lia]. }
  intros s s' i ph Hrun Hi. destruct (Hrank s s' i ph Hrun Hi) as (ph' & Hi' & Hle).
  exists ph'. repeat split; try done.
  - intros ->. destruct ph'; simpl in Hle; try lia. done.
  - intros -> ->. simpl in Hle. lia.
Qed.

(** X22.  The edges of [maxConcurrentSessions]: a negative value makes the
    creation of the channel panic; with zero the main loop can never take a
    slot, so no session goroutine is ever started and no session receiver
    is ever opened. *)
Theorem session_pool_without_slots (maxConcurrentSessions : Z) :
  maxConcurrentSessions <= 0 ->
  (maxConcurrentSessions < 0 -> newPool maxConcurrentSessions = None) /\
  (forall (acts : list action) (s0 s : pool),
     newPool maxConcurrentSessions = Some s0 ->
     run acts s0 = Some s ->
     sessions s = [] /\ openSessions s = O /\ tokens s = O /\ holding s = false).
Proof.
  intros Hle. split.
  { intros Hneg. unfold newPool. destruct (Z.ltb_spec maxConcurrentSessions 0); [done | lia]. }
  intros acts s0 s Hnew Hrun.
  assert (sessions s0 = [] /\ tokens s0 = O /\ holding s0 = false) as Hinit.
  { unfold newPool in Hnew. destruct (maxConcurrentSessions <? 0); [done |].
    injection Hnew as <-. simpl. repeat split; try done. lia. }
  clear Hnew.
  assert (sessions s = [] /\ tokens s = O /\ holding s = false) as (Hs & Ht & Hh).
  { revert s0 Hinit Hrun. induction acts as [| a acts IH]; intros s0 (Hs & Ht & Hh) Hrun;
      simpl in Hrun.
    - by injection Hrun as <-.
    - destruct (step a s0) as [s1 |] eqn:Hstep; [| done].
      apply (IH s1); [| done]. clear IH Hrun.
      destruct a as [| | | | | i | i | i | i]; simpl in Hstep;
        unfold inPhase in Hstep; rewrite ?Hs, ?Ht, ?Hh in Hstep; simpl in Hstep.
      + injection Hstep as <-. done.
      + destruct (returned s0), (ctxCancelled s0); simplify_eq/=; done.
      + destruct (returned s0); simplify_eq/=.
      + destruct (returned s0); simplify_eq/=.
      + destruct (returned s0); simplify_eq/=.
      + first [done | rewrite bool_decide_eq_false_2 in Hstep by done; done].
      + first [done | rewrite bool_decide_eq_false_2 in Hstep by done; done].
      + first [done | rewrite bool_decide_eq_false_2 in Hstep by done; done].
      + first [done | rewrite bool_decide_eq_false_2 in Hstep by done; done]. }
  unfold openSessions. rewrite Hs. done.
Qed.

End PoolMore.

(** ** Concrete runs of the further properties *)




Lemma Publish_negative_max_retries_witness :
  uint64 (-1) = 18446744073709551615 /\
  exists w',
    Publish Demo.isNet Demo.isAmqp Demo.mkMsg Demo.ebo 3 Demo.busNegative Demo.req
      Demo.twoNetworkFailures Demo.w0 = Ok None w' /\
    attempts w' = 3%nat.
Proof.
  destruct (Publish_negative_max_retries Demo.isNet Demo.isAmqp Demo.mkMsg Demo.ebo 2 3
              Demo.busNegative Demo.req Demo.twoNetworkFailures
              {| MessageID := Some "m1"; Body := "payload" |} Demo.mdNegative Demo.pctx
              Demo.w0)
    as [Hcap Hrun].
  - reflexivity.
  - reflexivity.
  - reflexivity.
  - simpl. lia.
  - lia.
  - reflexivity.
  - vm_compute. reflexivity.
  - intros k Hk. simpl.
    destruct k as [| [| k]]; [| | lia];
      (split; [reflexivity |]; split; [reflexivity |];
       exists (Errorf "connection lost"); repeat split; reflexivity).
  - repeat split; reflexivity.
  - lia.
  - split; [reflexivity | exact Hrun].
Defined.

Lemma Demo_bus_initialised : initialised Demo.bus.
Proof. exists Demo.md, O. repeat split; reflexivity. Defined.

Lemma Close_twice_witness :
  exists w1 w2,
    Close Demo.bus Demo.w1 = Ok None w1 /\ Close Demo.bus w1 = Ok None w2 /\
    senders w2 = ∅.
Proof.
  destruct (Close_twice Demo.bus Demo.w1 Demo_bus_initialised)
    as (w1 & w2 & H1 & H2 & _ & _ & Hs & _).
  exists w1, w2. split; [exact H1 |]. split; [exact H2 | exact Hs].
Defined.


Lemma Publish_after_Close_is_cancelled_witness :
  exists w1 w2,
    Close Demo.bus Demo.w0 = Ok None w1 /\
    Publish Demo.isNet Demo.isAmqp Demo.mkMsg Demo.ebo 6 Demo.bus Demo.req
      (fun _ => Demo.honoursContext) w1 = Ok (Some Canceled) w2 /\
    attempts w2 = 1%nat.
Proof.
  destruct (Publish_after_Close_is_cancelled Demo.isNet Demo.isAmqp Demo.mkMsg Demo.ebo 5
              Demo.bus Demo.req (fun _ => Demo.honoursContext)
              {| MessageID := Some "m1"; Body := "payload" |} Demo.md Canceled Demo.w0
              Demo_bus_initialised)
    as (w1 & w2 & l & H1 & H2 & H3 & _).
  - reflexivity.
  - reflexivity.
  - vm_compute. discriminate.
  - vm_compute. reflexivity.
  - reflexivity.
  - reflexivity.
  - exists w1, w2. split; [exact H1 |]. split; [exact H2 | exact H3].
Defined.

Lemma BulkPublish_after_Close_fails_provisioning_witness :
  exists w1 w2,
    Close Demo.bus Demo.w2 = Ok None w1 /\
    BulkPublish Demo.getElem "maxBulkPubBytes" Demo.bus Demo.callerCtx Demo.bulkReq
      Demo.honoursContext w1 =
      Ok (NewBulkPublishResponse (bulkEntries Demo.bulkReq) PublishFailed (Some Canceled),
          Some Canceled) w2.
Proof.
  destruct (BulkPublish_after_Close_fails_provisioning Demo.getElem "maxBulkPubBytes"
              Demo.bus Demo.callerCtx Demo.pctx Demo.bulkReq Demo.honoursContext Canceled
              Demo.w2 Demo_bus_initialised)
    as (w1 & w2 & H1 & H2 & _).
  - reflexivity.
  - discriminate.
  - reflexivity.
  - exists w1, w2. split; [exact H1 | exact H2].
Defined.


Lemma Init_failure_leaves_component_unusable_witness :
  exists a' m,
    Init Demo.parseFails Demo.clientOk ∅ NewAzureServiceBusTopics emptyWorld
      = Ok (a', Some (Errorf "bad metadata")) emptyWorld /\
    Close a' emptyWorld = Panic m.
Proof.
  destruct (Init_failure_leaves_component_unusable Demo.parseFails Demo.clientOk ∅
              NewAzureServiceBusTopics (Errorf "bad metadata") emptyWorld emptyWorld
              emptyWorld eq_refl) as (_ & _ & _ & m & Hclose).
  exists NewAzureServiceBusTopics, m. split; [reflexivity | exact Hclose].
Defined.

Lemma Init_success_gives_live_fresh_context_witness :
  exists a' w',
    Init Demo.parseOk Demo.clientOk ∅ NewAzureServiceBusTopics emptyWorld
      = Ok (a', None) w' /\
    initialised a' /\ publishCancel a' = Some O.
Proof.
  eexists _, _. split; [vm_compute; reflexivity |].
  destruct (Init_success_gives_live_fresh_context Demo.parseOk Demo.clientOk ∅
              NewAzureServiceBusTopics _ emptyWorld _
              ltac:(intros id Hid; simpl in Hid; by apply not_elem_of_empty in Hid)
              eq_refl) as (Hinit & _ & Hcancel & _).
  split; [exact Hinit | exact Hcancel].
Defined.

Lemma BulkPublish_all_or_nothing_witness :
  exists resp w',
    BulkPublish Demo.getElem "maxBulkPubBytes" Demo.bus Demo.callerCtx Demo.bulkReq
      Demo.allFine Demo.w2 = Ok (resp, None) w' /\
    map respEntryId (Statuses resp) = ["1"; "2"] /\
    Forall (fun st => respError st = None /\ respStatus st = PublishSucceeded)
      (Statuses resp).
Proof.
  destruct (BulkPublish_all_or_nothing Demo.getElem "maxBulkPubBytes" Demo.bus
              Demo.callerCtx Demo.pctx Demo.bulkReq Demo.allFine Demo.w2 eq_refl eq_refl)
    as (resp & err & w' & Hrun & Hids & Hall).
  assert (err = None) as ->.
  { revert Hrun. vm_compute. congruence. }
  exists resp, w'. split; [exact Hrun |]. split; [exact Hids | exact Hall].
Defined.

Lemma BulkPublish_single_pass_witness :
  exists resp err w' l,
    BulkPublish Demo.getElem "maxBulkPubBytes" Demo.bus Demo.callerCtx Demo.bulkReq
      (Demo.sendFails (Errorf "connection lost")) Demo.w1 = Ok (resp, err) w' /\
    log w' = log Demo.w1 ++ l /\
    countEv isCloseSender l = O /\
    senders w' !! "orders" = Some 7%nat.
Proof.
  destruct (BulkPublish_single_pass Demo.getElem "maxBulkPubBytes" Demo.bus
              Demo.callerCtx Demo.pctx Demo.bulkReq
              (Demo.sendFails (Errorf "connection lost")) Demo.w1)
    as (resp & err & w' & l & Hrun & Hlog & _ & _ & _ & _ & _ & _ & Hclose & Hkeep & _).
  - discriminate.
  - reflexivity.
  - reflexivity.
  - exists resp, err, w', l. split; [exact Hrun |]. split; [exact Hlog |].
    split; [exact Hclose |]. apply Hkeep. vm_compute. reflexivity.
Defined.

Lemma BulkPublish_succeeds_iff_every_step_does_witness :
  exists resp w',
    BulkPublish Demo.getElem "maxBulkPubBytes" Demo.bus Demo.callerCtx Demo.bulkReq
      Demo.allFine Demo.w2 = Ok (resp, None) w'.
Proof.
  destruct (BulkPublish_succeeds_iff_every_step_does Demo.getElem "maxBulkPubBytes"
              Demo.bus Demo.callerCtx Demo.pctx Demo.bulkReq Demo.allFine Demo.w2)
    as (resp & err & w' & l & Hrun & _ & Hiff & _).
  - discriminate.
  - reflexivity.
  - reflexivity.
  - assert (err = None) as ->.
    { apply Hiff. repeat split; reflexivity. }
    exists resp, w'. exact Hrun.
Defined.


Lemma reconnect_wait_restarts_after_first_success_witness :
  exists st w' l,
    reconnectLoop Demo.reconnector
      (setCurrent (60 * Second) 9 (gPolicy Demo.reconnector))
      [Demo.firstMessage] Demo.w2 = Ok st w' /\
    log w' = log Demo.w2 ++ l /\
    head (sleeps l) = Some (2 * Second).
Proof.
  destruct (reconnect_wait_restarts_after_first_success Demo.reconnector
              (setCurrent (60 * Second) 9 (gPolicy Demo.reconnector))
              Demo.firstMessage [] Demo.w2)
    as (st & w' & l & Hrun & Hlog & Hhead).
  - reflexivity.
  - reflexivity.
  - reflexivity.
  - reflexivity.
  - reflexivity.
  - simpl. split; [lia | exact I].
  - reflexivity.
  - exists st, w', l. split; [exact Hrun |]. split; [exact Hlog | exact Hhead].
Defined.

Lemma reconnect_first_wait_ignores_min_recovery_witness :
  exists st w' l,
    runGoroutine Demo.reconnector [Demo.lostConnection] Demo.w2 = Ok st w' /\
    log w' = log Demo.w2 ++ l /\
    head (sleeps l) = Some (500 * Millisecond) /\
    InitialInterval (gPolicy Demo.reconnector) = 2 * Second.
Proof.
  destruct (reconnect_first_wait_ignores_min_recovery Demo.ebo Demo.md Demo.reconnector
              Demo.lostConnection [] Demo.w2)
    as (st & w' & l & Hrun & Hlog & Hhead).
  - reflexivity.
  - reflexivity.
  - reflexivity.
  - reflexivity.
  - simpl. split; [lia | exact I].
  - reflexivity.
  - exists st, w', l. split; [exact Hrun |]. split; [exact Hlog |].
    split; [exact Hhead | reflexivity].
Defined.


Lemma session_phases_only_advance_witness :
  exists s' ph',
    SessionPool.run [SessionPool.ReceiveEnd 0; SessionPool.Release 0]
      Demo.cancelledPool = Some s' /\
    SessionPool.sessions s' !! O = Some ph' /\
    (SessionPool.rank SessionPool.Receiving <= SessionPool.rank ph')%nat.
Proof.
  destruct (session_phases_only_advance
              [SessionPool.ReceiveEnd 0; SessionPool.Release 0]
              Demo.cancelledPool _ O SessionPool.Receiving eq_refl eq_refl)
    as (ph' & Hi & Hle & _).
  eexists _, ph'. split; [reflexivity |]. split; [exact Hi | exact Hle].
Defined.

Lemma session_pool_without_slots_witness :
  SessionPool.newPool (-1) = None /\
  SessionPool.step SessionPool.MainTake
    {| SessionPool.capacity := 0; SessionPool.tokens := 0;
       SessionPool.holding := false; SessionPool.returned := false;
       SessionPool.ctxCancelled := false; SessionPool.sessions := [] |} = None.
Proof.
  split.
  - exact (proj1 (session_pool_without_slots (-1) ltac:(lia)) ltac:(lia)).
  - reflexivity.
Defined.
